(** * RSS feed of tutorials: a shallow embedding of [_ext/rss.py]

    The extension turns the metadata of the built pages into [RSSItem]
    values, collects them in an [RSSFeed] and writes the rendered document
    to [tutorials.rss].  The embedding follows the Python source function by
    function.  The standard-library functions the source calls
    ([html.escape], [email.utils.format_datetime], [datetime.fromisoformat],
    [sorted], ...) are embedded next to it from the reference implementation
    shipped with CPython 3.11. *)

From Stdlib Require Import ZArith List Ascii String Lia Permutation Sorted.
From Stdlib Require Import DecimalString.
From stdpp Require Import base option list sorting gmap strings.

Local Open Scope Z_scope.

(** ** Exceptions and the error monad *)

Inductive exn : Type :=
| KeyError (key : string)
| ValueError
| TypeError
| OverflowError
| FileNotFoundError (path : string)
| OSError (path : string).

Inductive result (A : Type) : Type :=
| Ok (a : A)
| Raise (e : exn).
Arguments Ok {A} a.
Arguments Raise {A} e.

#[global] Instance result_ret : MRet result := fun A a => Ok a.

#[global] Instance result_bind : MBind result := fun A B k m =>
  match m with
  | Ok a => k a
  | Raise e => Raise e
  end.

(** [[f(x) for x in l]] where [f] may raise: evaluation is left to right and
    stops at the first exception. *)
Fixpoint comprehension {A B} (f : A -> result B) (l : list A) : result (list B) :=
  match l with
  | [] => Ok []
  | x :: l' => y ← f x; ys ← comprehension f l'; Ok (y :: ys)
  end.

(** ** Strings *)

Definition dquote : string := String "034"%char EmptyString.
Definition newline : string := String "010"%char EmptyString.

(** [s[a:b]] for [0 <= a <= b]; out-of-range bounds are clamped. *)
Definition slice (a b : nat) (s : string) : string :=
  String.substring a (b - a) s.

(** [s[a:]] *)
Fixpoint slice_from (a : nat) (s : string) : string :=
  match a, s with
  | O, _ => s
  | S a', EmptyString => EmptyString
  | S a', String _ s' => slice_from a' s'
  end.

(** [s.startswith(p)] *)
Definition startswith (s p : string) : bool := String.prefix p s.

(** [s.replace(c, r)] for a pattern [c] of one character. *)
Fixpoint replace (c : ascii) (r : string) (s : string) : string :=
  match s with
  | EmptyString => EmptyString
  | String a s' =>
      if Ascii.eqb a c then r +:+ replace c r s'
      else String a (replace c r s')
  end.

(** [sep.join(l)] *)
Fixpoint join (sep : string) (l : list string) : string :=
  match l with
  | [] => EmptyString
  | [s] => s
  | s :: l' => s +:+ sep +:+ join sep l'
  end.

(** [html.escape(s, quote)] *)
Definition escape (s : string) (quote : bool) : string :=
  let s := replace "&" "&amp;" s in
  let s := replace "<" "&lt;" s in
  let s := replace ">" "&gt;" s in
  if quote then
    let s := replace "034" "&quot;" s in
    replace "'" "&#x27;" s
  else s.

(** What [escape(_, quote=False)] is meant to do to one character. *)
Definition escape_char (c : ascii) : string :=
  if Ascii.eqb c "&" then "&amp;"
  else if Ascii.eqb c "<" then "&lt;"
  else if Ascii.eqb c ">" then "&gt;"
  else String c EmptyString.

(** The ['%0wd' % n] conversion of printf-style formatting. *)
Definition decimal (n : Z) : string :=
  NilEmpty.string_of_uint (N.to_uint (Z.to_N n)).

Fixpoint zeros (k : nat) : string :=
  match k with
  | O => EmptyString
  | S k' => String "0" (zeros k')
  end.

Definition zfill (w : nat) (s : string) : string :=
  zeros (w - String.length s) +:+ s.

Definition fmt_d (w : nat) (n : Z) : string :=
  if n <? 0 then String "-" (zfill (w - 1) (decimal (- n)))
  else zfill w (decimal n).

Definition is_ascii_digit (c : ascii) : bool :=
  let n := N_of_ascii c in ((48 <=? n) && (n <=? 57))%N.

(** [int(s)] on a string of ASCII digits, the only strings the ISO parser
    of the C accelerator converts; anything else is a [ValueError]. *)
Fixpoint int_digits (acc : Z) (s : string) : result Z :=
  match s with
  | EmptyString => Ok acc
  | String c s' =>
      if is_ascii_digit c
      then int_digits (10 * acc + (Z.of_N (N_of_ascii c) - 48)) s'
      else Raise ValueError
  end.

Definition int (s : string) : result Z :=
  match s with
  | EmptyString => Raise ValueError
  | _ => int_digits 0 s
  end.

Fixpoint all_digits (s : string) : bool :=
  match s with
  | EmptyString => true
  | String c s' => is_ascii_digit c && all_digits s'
  end.

(** [s.find(c)]: index of the first occurrence, [-1] when there is none. *)
Fixpoint find_from (i : Z) (c : ascii) (s : string) : Z :=
  match s with
  | EmptyString => -1
  | String a s' => if Ascii.eqb a c then i else find_from (i + 1) c s'
  end.

Definition find (c : ascii) (s : string) : Z := find_from 0 c s.

(** ** The proleptic Gregorian calendar of [datetime] *)

Definition b2z (b : bool) : Z := if b then 1 else 0.

(** [l[i]] for an index the source keeps in range. *)
Definition getitem {A} (d : A) (l : list A) (i : Z) : A :=
  default d (l !! Z.to_nat i).

Definition MINYEAR : Z := 1.
Definition MAXYEAR : Z := 9999.
Definition _MAXORDINAL : Z := 3652059.

Definition _DAYS_IN_MONTH : list Z :=
  [-1; 31; 28; 31; 30; 31; 30; 31; 31; 30; 31; 30; 31].

Definition _DAYS_BEFORE_MONTH : list Z :=
  [-1; 0; 31; 59; 90; 120; 151; 181; 212; 243; 273; 304; 334].

Definition _is_leap (year : Z) : bool :=
  (year mod 4 =? 0) && (negb (year mod 100 =? 0) || (year mod 400 =? 0)).

Definition _days_before_year (year : Z) : Z :=
  let y := year - 1 in
  y * 365 + y / 4 - y / 100 + y / 400.

Definition _days_in_month (year month : Z) : Z :=
  if (month =? 2) && _is_leap year then 29
  else getitem 0 _DAYS_IN_MONTH month.

Definition _days_before_month (year month : Z) : Z :=
  getitem 0 _DAYS_BEFORE_MONTH month + b2z ((2 <? month) && _is_leap year).

Definition _ymd2ord (year month day : Z) : Z :=
  _days_before_year year + _days_before_month year month + day.

Definition _DI400Y : Z := Eval cbv in _days_before_year 401.
Definition _DI100Y : Z := Eval cbv in _days_before_year 101.
Definition _DI4Y : Z := Eval cbv in _days_before_year 5.

Definition _ord2ymd (n : Z) : Z * Z * Z :=
  let n := n - 1 in
  let n400 := n / _DI400Y in
  let n := n mod _DI400Y in
  let year := n400 * 400 + 1 in
  let n100 := n / _DI100Y in
  let n := n mod _DI100Y in
  let n4 := n / _DI4Y in
  let n := n mod _DI4Y in
  let n1 := n / 365 in
  let n := n mod 365 in
  let year := year + n100 * 100 + n4 * 4 + n1 in
  if (n1 =? 4) || (n100 =? 4) then (year - 1, 12, 31)
  else
    let leapyear := (n1 =? 3) && (negb (n4 =? 24) || (n100 =? 3)) in
    let month := Z.shiftr (n + 50) 5 in
    let preceding :=
      getitem 0 _DAYS_BEFORE_MONTH month + b2z ((2 <? month) && leapyear) in
    if n <? preceding then
      let month := month - 1 in
      let preceding :=
        preceding
        - (getitem 0 _DAYS_IN_MONTH month + b2z ((month =? 2) && leapyear)) in
      (year, month, n - preceding + 1)
    else (year, month, n - preceding + 1).

Definition _isoweek1monday (year : Z) : Z :=
  let THURSDAY := 3 in
  let firstday := _ymd2ord year 1 1 in
  let firstweekday := (firstday + 6) mod 7 in
  let week1monday := firstday - firstweekday in
  if THURSDAY <? firstweekday then week1monday + 7 else week1monday.

Definition _isoweek_to_gregorian (year week day : Z) : result (Z * Z * Z) :=
  if negb ((MINYEAR <=? year) && (year <=? MAXYEAR)) then Raise ValueError
  else
    let out_of_range :=
      if negb ((0 <? week) && (week <? 53)) then
        if week =? 53 then
          let first_weekday := _ymd2ord year 1 1 mod 7 in
          negb ((first_weekday =? 4)
                || ((first_weekday =? 3) && _is_leap year))
        else true
      else false in
    if out_of_range then Raise ValueError
    else if negb ((0 <? day) && (day <? 8)) then Raise ValueError
    else
      let day_offset := (week - 1) * 7 + (day - 1) in
      let day_1 := _isoweek1monday year in
      Ok (_ord2ymd (day_1 + day_offset)).

(** ** [timedelta], [timezone] and [datetime] *)

(** A [timedelta] is its exact length in microseconds. *)
Definition timedelta : Type := Z.

Definition mk_timedelta (hours minutes seconds microseconds : Z) : timedelta :=
  ((hours * 60 + minutes) * 60 + seconds) * 1000000 + microseconds.

(** A [tzinfo] is [None] or a fixed-offset [timezone], which is its offset:
    two [timezone] objects are equal when their offsets are. *)
Definition UTC : timedelta := 0.

Definition _maxoffset : timedelta := mk_timedelta 24 0 0 (-1).
Definition _minoffset : timedelta := - _maxoffset.

Definition timezone (offset : timedelta) : result timedelta :=
  if negb ((_minoffset <=? offset) && (offset <=? _maxoffset))
  then Raise ValueError
  else Ok offset.

Record datetime : Type := mk_datetime {
  year : Z;
  month : Z;
  day : Z;
  hour : Z;
  minute : Z;
  second : Z;
  microsecond : Z;
  tzinfo : option timedelta
}.

Definition _check_date_fields (year month day : Z) : result unit :=
  if negb ((MINYEAR <=? year) && (year <=? MAXYEAR)) then Raise ValueError
  else if negb ((1 <=? month) && (month <=? 12)) then Raise ValueError
  else
    let dim := _days_in_month year month in
    if negb ((1 <=? day) && (day <=? dim)) then Raise ValueError
    else Ok tt.

Definition _check_time_fields (hour minute second microsecond : Z)
  : result unit :=
  if negb ((0 <=? hour) && (hour <=? 23)) then Raise ValueError
  else if negb ((0 <=? minute) && (minute <=? 59)) then Raise ValueError
  else if negb ((0 <=? second) && (second <=? 59)) then Raise ValueError
  else if negb ((0 <=? microsecond) && (microsecond <=? 999999))
  then Raise ValueError
  else Ok tt.

(** [datetime(year, month, day, hour, minute, second, microsecond, tzinfo)] *)
Definition datetime_new (year month day hour minute second microsecond : Z)
    (tz : option timedelta) : result datetime :=
  _ ← _check_date_fields year month day;
  _ ← _check_time_fields hour minute second microsecond;
  Ok (mk_datetime year month day hour minute second microsecond tz).

(** The invariant of every [datetime] object: what the constructor checks. *)
Definition valid_datetime (dt : datetime) : bool :=
  match _check_date_fields (year dt) (month dt) (day dt),
        _check_time_fields (hour dt) (minute dt) (second dt) (microsecond dt),
        tzinfo dt with
  | Ok _, Ok _, None => true
  | Ok _, Ok _, Some off => (_minoffset <=? off) && (off <=? _maxoffset)
  | _, _, _ => false
  end.

(** [dt.replace(tzinfo=tz)].  Python passes the fields through the
    constructor again; they are those of an existing object, so its checks
    pass and only [tzinfo] changes. *)
Definition replace_tzinfo (dt : datetime) (tz : option timedelta) : datetime :=
  mk_datetime (year dt) (month dt) (day dt) (hour dt) (minute dt) (second dt)
    (microsecond dt) tz.

Definition toordinal (dt : datetime) : Z :=
  _ymd2ord (year dt) (month dt) (day dt).

Definition weekday (dt : datetime) : Z := (toordinal dt + 6) mod 7.

Definition utcoffset (dt : datetime) : option timedelta := tzinfo dt.

(** The fields of [dt.timetuple()] that are read below. *)
Record struct_time : Type := mk_struct_time {
  tm_year : Z; tm_mon : Z; tm_mday : Z;
  tm_hour : Z; tm_min : Z; tm_sec : Z; tm_wday : Z
}.

Definition timetuple (dt : datetime) : struct_time :=
  mk_struct_time (year dt) (month dt) (day dt)
    (hour dt) (minute dt) (second dt) (weekday dt).

(** The length of [dt] since the start of ordinal day 0, in microseconds,
    as [datetime.__sub__] and [datetime.__add__] compute it. *)
Definition wall_micros (dt : datetime) : Z :=
  (toordinal dt * 86400 + (hour dt * 3600 + minute dt * 60 + second dt))
  * 1000000 + microsecond dt.

(** [a - b] for two datetimes *)
Definition datetime_sub (a b : datetime) : result timedelta :=
  let base := wall_micros a - wall_micros b in
  match utcoffset a, utcoffset b with
  | None, None => Ok base
  | Some myoff, Some otoff =>
      if myoff =? otoff then Ok base else Ok (base + otoff - myoff)
  | _, _ => Raise TypeError
  end.

(** [dt - delta] for a [timedelta] *)
Definition datetime_sub_delta (dt : datetime) (delta : timedelta)
  : result datetime :=
  let total := wall_micros dt - delta in
  let days := total / 86400000000 in
  let rest := total mod 86400000000 in
  let seconds := rest / 1000000 in
  let micros := rest mod 1000000 in
  let hour := seconds / 3600 in
  let rem := seconds mod 3600 in
  let minute := rem / 60 in
  let second := rem mod 60 in
  if (0 <? days) && (days <=? _MAXORDINAL) then
    let '(y, m, d) := _ord2ymd days in
    Ok (mk_datetime y m d hour minute second micros (tzinfo dt))
  else Raise OverflowError.

(** [dt.astimezone(UTC)] for an aware [dt].  A naive [dt] is read in the
    local zone of the machine, which is outside this development. *)
Definition astimezone_utc (dt : datetime) : result datetime :=
  match utcoffset dt with
  | None => Raise TypeError
  | Some myoffset =>
      utc ← datetime_sub_delta dt myoffset;
      Ok (replace_tzinfo utc (Some UTC))
  end.

(** Comparison of the field tuples, [_cmp(x, y)] on
    [(year, month, day, hour, minute, second, microsecond)]. *)
Fixpoint _cmp (x y : list Z) : Z :=
  match x, y with
  | [], [] => 0
  | [], _ :: _ => -1
  | _ :: _, [] => 1
  | a :: x', b :: y' =>
      if a <? b then -1 else if b <? a then 1 else _cmp x' y'
  end.

Definition fields (dt : datetime) : list Z :=
  [year dt; month dt; day dt; hour dt; minute dt; second dt; microsecond dt].

(** [datetime._cmp(self, other)] *)
Definition datetime_cmp (a b : datetime) : result Z :=
  let myoff := utcoffset a in
  let otoff := utcoffset b in
  let base_compare := bool_decide (myoff = otoff) in
  if base_compare then Ok (_cmp (fields a) (fields b))
  else
    match myoff, otoff with
    | Some _, Some _ =>
        diff ← datetime_sub a b;
        Ok (if diff <? 0 then -1 else if diff =? 0 then 0 else 1)
    | _, _ => Raise TypeError
    end.

(** [a < b] *)
Definition datetime_lt (a b : datetime) : result bool :=
  c ← datetime_cmp a b; Ok (c <? 0).

(** Where [dt] lies on the time line, in microseconds: its fields, read in
    its own zone when it has one. *)
Definition instant (dt : datetime) : Z :=
  wall_micros dt - default 0 (utcoffset dt).

Definition naive (dt : datetime) : Prop := tzinfo dt = None.
Definition aware (dt : datetime) : Prop := is_Some (tzinfo dt).

(** [a == b] for two datetimes that can be ordered *)
Definition same_time (a b : datetime) : bool :=
  match datetime_cmp a b with
  | Ok c => c =? 0
  | Raise _ => false
  end.

(** ** [email.utils.format_datetime] *)

Definition day_names : list string :=
  ["Mon"; "Tue"; "Wed"; "Thu"; "Fri"; "Sat"; "Sun"]%string.

Definition month_names : list string :=
  ["Jan"; "Feb"; "Mar"; "Apr"; "May"; "Jun";
   "Jul"; "Aug"; "Sep"; "Oct"; "Nov"; "Dec"]%string.

Definition _format_timetuple_and_zone (t : struct_time) (zone : string)
  : string :=
  getitem EmptyString day_names (tm_wday t) +:+ ", " +:+
  fmt_d 2 (tm_mday t) +:+ " " +:+
  getitem EmptyString month_names (tm_mon t - 1) +:+ " " +:+
  fmt_d 4 (tm_year t) +:+ " " +:+
  fmt_d 2 (tm_hour t) +:+ ":" +:+ fmt_d 2 (tm_min t) +:+ ":" +:+
  fmt_d 2 (tm_sec t) +:+ " " +:+ zone.

(** [format_datetime(dt, usegmt=True)]: the only way the source calls it. *)
Definition format_datetime_usegmt (dt : datetime) : result string :=
  let now := timetuple dt in
  match tzinfo dt with
  | None => Raise ValueError
  | Some off =>
      if negb (off =? UTC) then Raise ValueError
      else Ok (_format_timetuple_and_zone now "GMT")
  end.

(** ** [datetime.fromisoformat]

    After [Lib/datetime.py] of CPython 3.11.  The C accelerator that
    CPython loads in its place agrees with it on well-formed input and
    differs on a few malformed ones (a date followed by a separator and no
    time, a zone offset of less than a second); the properties below do
    not depend on those. *)

Definition char_is (s : string) (i : nat) (c : ascii) : bool :=
  match String.get i s with
  | Some a => Ascii.eqb a c
  | None => false
  end.

Definition b2n (b : bool) : nat := if b then 1%nat else 0%nat.

(** The [while] loop of [_find_isoformat_datetime_separator]: the index of
    the first character from [idx] on that is not a digit. *)
Fixpoint skip_digits (idx : nat) (rest : string) : nat :=
  match rest with
  | EmptyString => idx
  | String c rest' =>
      if is_ascii_digit c then skip_digits (S idx) rest' else idx
  end.

Definition _find_isoformat_datetime_separator (dtstr : string) : result nat :=
  let len_dtstr := String.length dtstr in
  if (len_dtstr =? 7)%nat then Ok 7%nat
  else if char_is dtstr 4 "-" then
    if char_is dtstr 5 "W" then
      if (len_dtstr <? 8)%nat then Raise ValueError
      else if (8 <? len_dtstr)%nat && char_is dtstr 8 "-" then
        if (len_dtstr =? 9)%nat then Raise ValueError
        else if (10 <? len_dtstr)%nat
                && match String.get 10 dtstr with
                   | Some c => is_ascii_digit c
                   | None => false
                   end
        then Ok 8%nat
        else Ok 10%nat
      else Ok 8%nat
    else Ok 10%nat
  else if char_is dtstr 4 "W" then
    let idx := skip_digits 7 (slice_from 7 dtstr) in
    if (idx <? 9)%nat then Ok idx
    else if Nat.even idx then Ok 7%nat
    else Ok 8%nat
  else Ok 8%nat.

(** The reference implementation asserts that [dtstr] has length 7, 8 or
    10; the C accelerator reports other lengths as an invalid string. *)
Definition _parse_isoformat_date (dtstr : string) : result (Z * Z * Z) :=
  let len := String.length dtstr in
  if negb ((len =? 7)%nat || (len =? 8)%nat || (len =? 10)%nat)
  then Raise ValueError
  else
    year ← int (slice 0 4 dtstr);
    let has_sep := char_is dtstr 4 "-" in
    let pos := (4 + b2n has_sep)%nat in
    if String.eqb (slice pos (pos + 1) dtstr) "W" then
      let pos := (pos + 1)%nat in
      weekno ← int (slice pos (pos + 2) dtstr);
      let pos := (pos + 2)%nat in
      dayno ←
        (if (pos <? len)%nat then
           if negb (Bool.eqb (String.eqb (slice pos (pos + 1) dtstr) "-")
                             has_sep)
           then Raise ValueError
           else
             let pos := (pos + b2n has_sep)%nat in
             int (slice pos (pos + 1) dtstr)
         else Ok 1);
      _isoweek_to_gregorian year weekno dayno
    else
      month ← int (slice pos (pos + 2) dtstr);
      let pos := (pos + 2)%nat in
      if negb (Bool.eqb (String.eqb (slice pos (pos + 1) dtstr) "-") has_sep)
      then Raise ValueError
      else
        let pos := (pos + b2n has_sep)%nat in
        day ← int (slice pos (pos + 2) dtstr);
        Ok (year, month, day).

Definition _FRACTION_CORRECTION : list Z := [100000; 10000; 1000; 100; 10].

(** The [for comp in range(0, 3)] loop of [_parse_hh_mm_ss_ff]; [todo] is
    the number of iterations left.  It returns the components read so far
    and the position reached. *)
Fixpoint hh_mm_ss_loop (todo comp : nat) (tstr : string) (pos : nat)
    (has_sep : bool) (time_comps : list Z) : result (list Z * nat) :=
  match todo with
  | O => Ok (time_comps, pos)
  | S todo' =>
      if (String.length tstr - pos <? 2)%nat then Raise ValueError
      else
        v ← int (slice pos (pos + 2) tstr);
        let time_comps := <[comp := v]> time_comps in
        let pos := (pos + 2)%nat in
        let next_char := slice pos (pos + 1) tstr in
        let has_sep :=
          if (comp =? 0)%nat then String.eqb next_char ":" else has_sep in
        if String.eqb next_char EmptyString || (2 <=? comp)%nat
        then Ok (time_comps, pos)
        else if has_sep && negb (String.eqb next_char ":")
        then Raise ValueError
        else hh_mm_ss_loop todo' (S comp) tstr (pos + b2n has_sep) has_sep
               time_comps
  end.

Definition _parse_hh_mm_ss_ff (tstr : string) : result (list Z) :=
  let len_str := String.length tstr in
  '(time_comps, pos) ← hh_mm_ss_loop 3 0 tstr 0 false [0; 0; 0; 0];
  if (pos <? len_str)%nat then
    if negb (char_is tstr pos "." || char_is tstr pos ",")
    then Raise ValueError
    else
      let pos := (pos + 1)%nat in
      let len_remainder := (len_str - pos)%nat in
      let to_parse := if (6 <=? len_remainder)%nat then 6%nat
                      else len_remainder in
      frac ← int (slice pos (pos + to_parse) tstr);
      let frac :=
        if (to_parse <? 6)%nat
        then frac * getitem 0 _FRACTION_CORRECTION (Z.of_nat to_parse - 1)
        else frac in
      if (to_parse <? len_remainder)%nat
         && negb (all_digits (slice_from (pos + to_parse) tstr))
      then Raise ValueError
      else Ok (<[3%nat := frac]> time_comps)
  else Ok time_comps.

Definition _parse_isoformat_time (tstr : string)
  : result (list Z * option timedelta) :=
  let len_str := Z.of_nat (String.length tstr) in
  if len_str <? 2 then Raise ValueError
  else
    let tz_pos :=
      if negb (find "-" tstr + 1 =? 0) then find "-" tstr + 1
      else if negb (find "+" tstr + 1 =? 0) then find "+" tstr + 1
      else find "Z" tstr + 1 in
    let timestr :=
      if 0 <? tz_pos then slice 0 (Z.to_nat (tz_pos - 1)) tstr else tstr in
    time_comps ← _parse_hh_mm_ss_ff timestr;
    if (tz_pos =? len_str) && char_is tstr (Z.to_nat (len_str - 1)) "Z"
    then Ok (time_comps, Some UTC)
    else if 0 <? tz_pos then
      let tzstr := slice_from (Z.to_nat tz_pos) tstr in
      let n := String.length tzstr in
      if (n =? 0)%nat || (n =? 1)%nat || (n =? 3)%nat then Raise ValueError
      else
        tz_comps ← _parse_hh_mm_ss_ff tzstr;
        if forallb (Z.eqb 0) tz_comps then Ok (time_comps, Some UTC)
        else
          let tzsign :=
            if char_is tstr (Z.to_nat (tz_pos - 1)) "-" then -1 else 1 in
          let td := mk_timedelta (getitem 0 tz_comps 0) (getitem 0 tz_comps 1)
                      (getitem 0 tz_comps 2) (getitem 0 tz_comps 3) in
          tzi ← timezone (tzsign * td);
          Ok (time_comps, Some tzi)
    else Ok (time_comps, None).

Definition fromisoformat (date_string : string) : result datetime :=
  if (String.length date_string <? 7)%nat then Raise ValueError
  else
    separator_location ← _find_isoformat_datetime_separator date_string;
    let dstr := slice 0 separator_location date_string in
    let tstr := slice_from (separator_location + 1) date_string in
    '(y, m, d) ← _parse_isoformat_date dstr;
    '(time_comps, tzi) ←
      (if String.eqb tstr EmptyString then Ok ([0; 0; 0; 0], None)
       else _parse_isoformat_time tstr);
    datetime_new y m d
      (getitem 0 time_comps 0) (getitem 0 time_comps 1)
      (getitem 0 time_comps 2) (getitem 0 time_comps 3) tzi.

(** ** [sorted] *)

(** CPython sorts a short list by insertion: each element in turn is placed
    in the sorted prefix to the right of the elements it is not less than,
    with [pivot < elem] the only question asked.  The order produced is that
    of any stable sort. *)
Fixpoint insort {K} (lt : K -> K -> result bool) {A} (key : A -> K)
    (pivot : A) (prefix : list A) : result (list A) :=
  match prefix with
  | [] => Ok [pivot]
  | e :: rest =>
      b ← lt (key pivot) (key e);
      if b : bool then Ok (pivot :: e :: rest)
      else (rest' ← insort lt key pivot rest; Ok (e :: rest'))
  end.

Fixpoint sort_from {K} (lt : K -> K -> result bool) {A} (key : A -> K)
    (prefix : list A) (todo : list A) : result (list A) :=
  match todo with
  | [] => Ok prefix
  | x :: todo' =>
      prefix' ← insort lt key x prefix;
      sort_from lt key prefix' todo'
  end.

(** [sorted(l, key=key, reverse=reverse)].  It returns a new list.  For
    [reverse=True] the list is reversed, sorted and reversed again, which
    keeps equal elements in their original order. *)
Definition sorted {K} (lt : K -> K -> result bool) {A} (l : list A)
    (key : A -> K) (reverse : bool) : result (list A) :=
  let l := if reverse then List.rev l else l in
  s ← sort_from lt key [] l;
  Ok (if reverse then List.rev s else s).

(** ** The build machine *)

Record file : Type := mk_file {
  content : string;
  st_mtime : Z    (** modification time, in nanoseconds since the epoch *)
}.

Record FileSystem : Type := mk_fs {
  files : gmap string file;
  writable : string -> bool   (** may this path be opened for writing? *)
}.

(** [dir / name] of [pathlib] for a relative [name]. *)
Definition path_join (dir name : string) : string := dir +:+ "/" +:+ name.

(** [path.stat()] *)
Definition stat (fs : FileSystem) (path : string) : result file :=
  match files fs !! path with
  | Some f => Ok f
  | None => Raise (FileNotFoundError path)
  end.

(** Functions of the standard library that are taken as given:
    [urllib.parse.urljoin], and [datetime.fromtimestamp], which reads the
    time-zone database of the machine (its argument is in nanoseconds). *)
Class Platform : Type := {
  urljoin : string -> string -> string;
  fromtimestamp : Z -> datetime
}.

(** What the source reads of the Sphinx application. *)
Record Sphinx : Type := mk_Sphinx {
  html_baseurl : string;                 (** [app.config.html_baseurl] *)
  get_target_uri : string -> string;     (** [app.builder.get_target_uri] *)
  srcdir : string;
  outdir : string;
  (** [app.builder.env.metadata], a dict in insertion order *)
  metadata : list (string * gmap string string)
}.

(** [d[k]] for a dict kept as the list of its items. *)
Fixpoint dict_getitem {V} (d : list (string * V)) (k : string) : result V :=
  match d with
  | [] => Raise (KeyError k)
  | (k', v) :: d' => if String.eqb k' k then Ok v else dict_getitem d' k
  end.

(** [meta[k]] *)
Definition meta_getitem (meta : gmap string string) (k : string)
  : result string :=
  match meta !! k with
  | Some v => Ok v
  | None => Raise (KeyError k)
  end.

(** ** The source: [_ext/rss.py] *)

Definition _format_rfc_2822 (dt : datetime) : result string :=
  let datetime := replace_tzinfo dt (Some UTC) in
  format_datetime_usegmt datetime.

Module RSSItem.

Record t : Type := mk {
  title : string;
  date : datetime;
  description : string;
  url : string;
  author : string
}.

Definition get_date_updated `{Platform} (page_name : string)
    (meta : gmap string string) (app : Sphinx) (fs : FileSystem)
  : result datetime :=
  if bool_decide (is_Some (meta !! "date_updated")) then
    v ← meta_getitem meta "date_updated";
    fromisoformat v
  else
    let page_path := path_join (srcdir app) (page_name +:+ ".md") in
    st ← stat fs page_path;
    let mtime := st_mtime st in
    Ok (fromtimestamp mtime).

Definition from_meta `{Platform} (page_name : string)
    (meta : gmap string string) (app : Sphinx) (fs : FileSystem)
  : result t :=
  let url := urljoin (html_baseurl app) (get_target_uri app page_name) in
  title ← meta_getitem meta ":og:title";
  description ← meta_getitem meta ":og:description";
  date ← get_date_updated page_name meta app fs;
  let author := default "pyOpenSci" (meta !! ":og:author") in
  Ok (mk title date description url author).

(** The f-string of [render], with its six replacement fields. *)
Definition fragment (title link description author guid pubDate : string)
  : string :=
  "<item>" +:+ newline +:+
  "  <title>" +:+ title +:+ "</title>" +:+ newline +:+
  "  <link>" +:+ link +:+ "</link>" +:+ newline +:+
  "  <description>" +:+ description +:+ "</description>" +:+ newline +:+
  "  <author>" +:+ author +:+ "</author>" +:+ newline +:+
  "  <guid isPermaLink=" +:+ dquote +:+ "true" +:+ dquote +:+ ">" +:+
    guid +:+ "</guid>" +:+ newline +:+
  "  <pubDate>" +:+ pubDate +:+ "</pubDate>" +:+ newline +:+
  "</item>".

Definition render (self : t) : result string :=
  let title_ := escape (title self) false in
  let link_ := escape (url self) false in
  let description_ := escape (description self) false in
  let author_ := escape (author self) false in
  let guid_ := url self in
  pubDate ← _format_rfc_2822 (date self);
  Ok (fragment title_ link_ description_ author_ guid_ pubDate).

End RSSItem.

(** Log records of [sphinx.util.logging]; the debug record keeps the items
    it pretty-prints. *)
Inductive log_record : Type :=
| Info (msg : string)
| Debug_feed_items (feed_items : list RSSItem.t).

Record World : Type := mk_World {
  clock : Z;                  (** [time.time()], in nanoseconds *)
  fs : FileSystem;
  log : list log_record
}.

(** [datetime.now()] *)
Definition now `{Platform} (w : World) : datetime := fromtimestamp (clock w).

(** Code that runs on a mutable state [S] and may raise: the state is
    threaded through, and kept as it is when an exception leaves. *)
Definition stateM (S A : Type) : Type := S -> result A * S.

#[global] Instance stateM_ret {S} : MRet (stateM S) :=
  fun A a s => (Ok a, s).

#[global] Instance stateM_bind {S} : MBind (stateM S) :=
  fun A B k m s =>
    match m s with
    | (Ok a, s') => k a s'
    | (Raise e, s') => (Raise e, s')
    end.

Definition lift {S A} (r : result A) : stateM S A := fun s => (r, s).
Definition gets {S A} (f : S -> A) : stateM S A := fun s => (Ok (f s), s).
Definition modify {S} (f : S -> S) : stateM S unit := fun s => (Ok tt, f s).

Module RSSFeed.

Record t : Type := mk {
  items : list RSSItem.t;
  last_build_date : datetime;
  title : string;
  link : string;
  self_link : string;
  description : string;
  language : string
}.

(** The class object.  The defaults of a dataclass are the values of the
    expressions in the class body, which runs once, when the module is
    imported; [last_build_date: datetime = datetime.now()] is the only one
    that is not a literal. *)
Record class : Type := mk_class {
  default_last_build_date : datetime
}.

Definition class_body `{Platform} (w : World) : class :=
  mk_class (now w).

(** The generated [__init__]: a missing argument takes the class default. *)
Definition init (cls : class) (items : list RSSItem.t)
    (last_build_date : option datetime)
    (title link self_link description language : option string) : t :=
  mk items
    (default (default_last_build_date cls) last_build_date)
    (default "pyOpenSci Tutorials" title)
    (default "https://www.pyopensci.org/python-package-guide/tutorials/intro.html" link)
    (default "https://www.pyopensci.org/python-package-guide/tutorials.rss" self_link)
    (default "A tutorial feed that lists metadata for the pyOpenSci Python packaging tutorials so we can automatically list them on our website." description)
    (default "en" language).

(** [RSSFeed(items=items)] run in a world: the constructor neither reads
    the clock nor changes anything. *)
Definition new (cls : class) (items : list RSSItem.t) : stateM World t :=
  mret (init cls items None None None None None None).

Definition document (self : t) (items : string) (lastBuildDate : string)
  : string :=
  "<?xml version='1.0' encoding='UTF-8'?>" +:+ newline +:+
  "<rss xmlns:atom=" +:+ dquote +:+ "http://www.w3.org/2005/Atom" +:+ dquote
    +:+ " xmlns:content=" +:+ dquote
    +:+ "http://purl.org/rss/1.0/modules/content/" +:+ dquote
    +:+ " version=" +:+ dquote +:+ "2.0" +:+ dquote +:+ ">" +:+ newline +:+
  "  <channel>" +:+ newline +:+
  "    <title>" +:+ title self +:+ "</title>" +:+ newline +:+
  "    <link>" +:+ link self +:+ "</link>" +:+ newline +:+
  "    <atom:link href=" +:+ dquote +:+ self_link self +:+ dquote
    +:+ " rel=" +:+ dquote +:+ "self" +:+ dquote +:+ "/>" +:+ newline +:+
  "    <description>" +:+ description self +:+ "</description>" +:+ newline +:+
  "    <language>" +:+ language self +:+ "</language>" +:+ newline +:+
  "    <lastBuildDate>" +:+ lastBuildDate +:+ "</lastBuildDate>" +:+ newline +:+
  items +:+ newline +:+
  "  </channel>" +:+ newline +:+
  "</rss>" +:+ newline +:+
  "        ".

(** [render] as a method on the object [self].  [sorted] returns a new
    list, to which the local name [items] is bound; [self] is only read. *)
Definition render : stateM t string :=
  self_items ← gets items;
  items ← lift (sorted datetime_lt self_items RSSItem.date true);
  items ← lift (comprehension RSSItem.render items);
  let items := join newline items in
  self_last_build_date ← gets last_build_date;
  lastBuildDate ← lift (_format_rfc_2822 self_last_build_date);
  self ← gets id;
  mret (document self items lastBuildDate).

End RSSFeed.

(** [open(path, "w")]: the file is created or emptied as it is opened. *)
Definition open_w (path : string) : stateM World unit :=
  fun w =>
    if writable (fs w) path then
      (Ok tt,
       mk_World (clock w)
         (mk_fs (<[path := mk_file EmptyString (clock w)]> (files (fs w)))
                (writable (fs w)))
         (log w))
    else (Raise (OSError path), w).

(** [f.write(s)] on the file opened at [path] *)
Definition write (path : string) (s : string) : stateM World unit :=
  modify (fun w =>
    mk_World (clock w)
      (mk_fs (<[path := mk_file s (clock w)]> (files (fs w)))
             (writable (fs w)))
      (log w)).

Definition logger (r : log_record) : stateM World unit :=
  modify (fun w => mk_World (clock w) (fs w) (log w ++ [r])).

(** A call of a method on a local object from code that runs in the world:
    it returns the result and the object as the call left it. *)
Definition call {S A} (m : stateM S A) (obj : S) : stateM World (A * S) :=
  fun w =>
    match m obj with
    | (Ok a, obj') => (Ok (a, obj'), w)
    | (Raise e, _) => (Raise e, w)
    end.

(** [[t for t in metadata if t.startswith("tutorials/")]] *)
Definition tutorials (metadata : list (string * gmap string string))
  : list string :=
  filter (fun t => startswith t "tutorials/" = true) (metadata.*1).

(** [[RSSItem.from_meta(t, metadata[t], app) for t in tutorials]] *)
Definition feed_items `{Platform} (app : Sphinx) (fs : FileSystem)
  : result (list RSSItem.t) :=
  comprehension
    (fun t => m ← dict_getitem (metadata app) t; RSSItem.from_meta t m app fs)
    (tutorials (metadata app)).

Definition generate_tutorials_feed `{Platform} (cls : RSSFeed.class)
    (app : Sphinx) : stateM World unit :=
  _ ← logger (Info "Generating RSS feed for tutorials");
  fs_now ← gets fs;
  feed_items ← lift (feed_items app fs_now);
  feed ← RSSFeed.new cls feed_items;
  let path := path_join (outdir app) "tutorials.rss" in
  _ ← open_w path;
  '(text, feed) ← call RSSFeed.render feed;
  _ ← write path text;
  _ ← logger (Info ("Generated RSS feed for tutorials, wrote to " +:+ path));
  (* [feed_items] and [feed.items] are one list object *)
  logger (Debug_feed_items (RSSFeed.items feed)).

(** ** Sample data *)

(** A machine whose local zone is UTC, with string concatenation standing
    for URL resolution. *)
Definition utc_fromtimestamp (ns : Z) : datetime :=
  let micros := ns / 1000 in
  let days := micros / 86400000000 in
  let rest := micros mod 86400000000 in
  let seconds := rest / 1000000 in
  let '(y, m, d) := _ord2ymd (719163 + days) in
  mk_datetime y m d (seconds / 3600) (seconds mod 3600 / 60) (seconds mod 60)
    (rest mod 1000000) None.

Definition utc_machine : Platform :=
  {| urljoin := fun base u => base +:+ u; fromtimestamp := utc_fromtimestamp |}.

Definition sample_meta : gmap string string :=
  <[":og:title" := "Intro <1> & more"]>
  (<[":og:description" := "Say " +:+ dquote +:+ "hi" +:+ dquote]>
  (<["date_updated" := "2024-01-15T10:00:00"]> ∅)).

Definition sample_meta_mtime : gmap string string :=
  <[":og:title" := "Publish"]> (<[":og:description" := "To PyPI"]> ∅).

Definition sample_meta_untitled : gmap string string :=
  <[":og:description" := "No title"]> ∅.

Definition sample_app : Sphinx :=
  mk_Sphinx "https://www.pyopensci.org/python-package-guide/"
    (fun page => page +:+ ".html") "/src" "/out"
    [("index", sample_meta);
     ("tutorials/intro", sample_meta);
     ("tutorials/publish", sample_meta_mtime)].

Definition broken_app : Sphinx :=
  mk_Sphinx "https://www.pyopensci.org/python-package-guide/"
    (fun page => page +:+ ".html") "/src" "/out"
    [("tutorials/intro", sample_meta);
     ("tutorials/untitled", sample_meta_untitled)].

(** 2024-01-20 00:00:00 UTC, in nanoseconds since the epoch *)
Definition sample_mtime : Z := 1705708800 * 1000000000.

Definition sample_fs : FileSystem :=
  mk_fs (<["/src/tutorials/publish.md" := mk_file "# Publish" sample_mtime]> ∅)
        (fun _ => true).

Definition sample_world (clock : Z) : World := mk_World clock sample_fs [].

Definition aware_10h_plus5 : datetime :=
  mk_datetime 2024 1 15 10 0 0 0 (Some (mk_timedelta 5 0 0 0)).

Definition naive_10h : datetime := mk_datetime 2024 1 15 10 0 0 0 None.

Definition item_at (name : string) (d : datetime) : RSSItem.t :=
  RSSItem.mk name d "about" ("https://example.org/" +:+ name) "pyOpenSci".

Definition feed_of (items : list RSSItem.t) : RSSFeed.t :=
  RSSFeed.init (RSSFeed.mk_class naive_10h) items None None None None None None.

Definition naive_jan20 : datetime := mk_datetime 2024 1 20 0 0 0 0 None.

(** Three entries, the first and the last with the same timestamp. *)
Definition tied_feed : RSSFeed.t :=
  feed_of [item_at "a" naive_10h; item_at "b" naive_jan20;
           item_at "c" naive_10h].


Definition mixed_app : Sphinx :=
  mk_Sphinx "https://www.pyopensci.org/python-package-guide/"
    (fun page => page +:+ ".html") "/src" "/out"
    [("tutorials/zoned",
      <["date_updated" := "2024-01-15T10:00:00+05:00"]> sample_meta);
     ("tutorials/intro", sample_meta)].

(** A machine on which nothing can be opened for writing. *)
Definition readonly_world : World :=
  mk_World 5 (mk_fs (files sample_fs) (fun _ => false)) [].

(** A site with no page under [tutorials/]; its only page has no title. *)
Definition index_app : Sphinx :=
  mk_Sphinx "https://www.pyopensci.org/python-package-guide/"
    (fun page => page +:+ ".html") "/src" "/out"
    [("index", sample_meta_untitled)].

(** [sample_meta] with a key the source does not read. *)
Definition sample_meta_tagged : gmap string string :=
  <["tags" := "packaging"]> sample_meta.

(** * Properties *)

(** ** Strings and escaping *)

Lemma append_nil_l (s : string) : EmptyString +:+ s = s.
Proof. reflexivity. Qed.

Lemma append_cons (x : ascii) (a b : string) :
  String x a +:+ b = String x (a +:+ b).
Proof. reflexivity. Qed.

Lemma append_assoc (a b c : string) : (a +:+ b) +:+ c = a +:+ (b +:+ c).
Proof.
  induction a as [|x a IH]; [done |].
  by rewrite !append_cons, IH.
Qed.

Lemma replace_app (c : ascii) (r s1 s2 : string) :
  replace c r (s1 +:+ s2) = replace c r s1 +:+ replace c r s2.
Proof.
  induction s1 as [|a s1 IH]; [done |].
  rewrite append_cons. cbn [replace].
  destruct (Ascii.eqb a c); rewrite IH.
  - by rewrite append_assoc.
  - by rewrite append_cons.
Qed.

Lemma escape_nil : escape EmptyString false = EmptyString.
Proof. reflexivity. Qed.

Lemma escape_cons (c : ascii) (s : string) :
  escape (String c s) false = escape_char c +:+ escape s false.
Proof.
  unfold escape, escape_char. cbn [replace].
  destruct (Ascii.eqb c "&") eqn:Eamp.
  - by rewrite !replace_app.
  - cbn [replace]. destruct (Ascii.eqb c "<") eqn:Elt.
    + by rewrite !replace_app.
    + cbn [replace]. by destruct (Ascii.eqb c ">").
Qed.

Example escape_sample :
  escape ("a<b & " +:+ dquote +:+ "c>d") false
  = "a&lt;b &amp; " +:+ dquote +:+ "c&gt;d".
Proof. reflexivity. Qed.

Example fmt_d_sample :
  fmt_d 2 5 = "05" /\ fmt_d 4 2024 = "2024" /\ fmt_d 2 123 = "123".
Proof. repeat split. Qed.

(** ** Formatting dates *)

Lemma _format_rfc_2822_ok (dt : datetime) :
  _format_rfc_2822 dt = Ok (_format_timetuple_and_zone (timetuple dt) "GMT").
Proof. reflexivity. Qed.

Lemma render_item_ok (self : RSSItem.t) :
  RSSItem.render self
  = Ok (RSSItem.fragment
          (escape (RSSItem.title self) false) (escape (RSSItem.url self) false)
          (escape (RSSItem.description self) false)
          (escape (RSSItem.author self) false) (RSSItem.url self)
          (_format_timetuple_and_zone (timetuple (RSSItem.date self)) "GMT")).
Proof. reflexivity. Qed.


(** C1, as the source has it: [_format_rfc_2822] never raises and formats
    the calendar date and clock time the timestamp carries, under the GMT
    designator, whatever zone is attached; the zone is replaced, so two
    timestamps that differ only in their zone give the same text, and so do
    the items that carry them. *)
Theorem C1_pubDate_replaces_zone (dt : datetime) :
  _format_rfc_2822 dt = Ok (_format_timetuple_and_zone (timetuple dt) "GMT")
  /\ (forall tz, _format_rfc_2822 (replace_tzinfo dt tz) = _format_rfc_2822 dt)
  /\ (forall title description url author tz,
        RSSItem.render
          (RSSItem.mk title (replace_tzinfo dt tz) description url author)
        = RSSItem.render (RSSItem.mk title dt description url author)).
Proof. repeat split. Qed.

(** C1, as the spec words it, fails at 10:00 in the zone +05:00: the
    instant is 05:00 UTC, and the source prints 10:00 GMT. *)
Lemma C1_counterexample_plus5 :
  fromisoformat "2024-01-15T10:00:00+05:00" = Ok aware_10h_plus5
  /\ astimezone_utc aware_10h_plus5
     = Ok (mk_datetime 2024 1 15 5 0 0 0 (Some UTC))
  /\ format_datetime_usegmt (mk_datetime 2024 1 15 5 0 0 0 (Some UTC))
     = Ok "Mon, 15 Jan 2024 05:00:00 GMT"
  /\ _format_rfc_2822 aware_10h_plus5 = Ok "Mon, 15 Jan 2024 10:00:00 GMT"
  /\ ~ (forall dt utc, astimezone_utc dt = Ok utc ->
          _format_rfc_2822 dt = format_datetime_usegmt utc).
Proof.
  repeat split.
  intros H.
  specialize (H aware_10h_plus5 _ eq_refl). vm_compute in H. discriminate H.
Qed.

(** ** Exceptions of the ISO parser *)

Lemma bind_raises {A B} (m : result A) (k : A -> result B) (e : exn) :
  m ≫= k = Raise e ->
  m = Raise e \/ exists a, m = Ok a /\ k a = Raise e.
Proof. destruct m as [a|e']; simpl; [eauto | intros [= ->]; eauto]. Qed.

Create HintDb raises.

Ltac raises_step :=
  match goal with
  | H : Ok _ = Raise _ |- _ => discriminate H
  | H : Raise _ = Raise _ |- _ => injection H as <-
  | H : _ ≫= _ = Raise _ |- _ =>
      apply bind_raises in H; destruct H as [H | (? & ? & H)]
  | H : (let '(_, _) := ?p in _) = Raise _ |- _ => destruct p
  | H : (if ?b then _ else _) = Raise _ |- _ => destruct b
  | H : match ?x with _ => _ end = Raise _ |- _ => destruct x eqn:?
  end.

Ltac only_ValueError := repeat raises_step; eauto with raises.

Lemma int_digits_raises acc s e : int_digits acc s = Raise e -> e = ValueError.
Proof.
  revert acc; induction s as [|c s IH]; intros acc H; simpl in H.
  - discriminate.
  - destruct (is_ascii_digit c); [eauto | by injection H as <-].
Qed.

Lemma int_raises s e : int s = Raise e -> e = ValueError.
Proof.
  destruct s; [by intros [= <-] | apply int_digits_raises].
Qed.
#[local] Hint Resolve int_raises : raises.

Lemma _isoweek_to_gregorian_raises y w d e :
  _isoweek_to_gregorian y w d = Raise e -> e = ValueError.
Proof. unfold _isoweek_to_gregorian. intros H. only_ValueError. Qed.
#[local] Hint Resolve _isoweek_to_gregorian_raises : raises.

Lemma _find_isoformat_datetime_separator_raises s e :
  _find_isoformat_datetime_separator s = Raise e -> e = ValueError.
Proof. unfold _find_isoformat_datetime_separator. intros H. only_ValueError. Qed.
#[local] Hint Resolve _find_isoformat_datetime_separator_raises : raises.

Lemma _parse_isoformat_date_raises s e :
  _parse_isoformat_date s = Raise e -> e = ValueError.
Proof. unfold _parse_isoformat_date. intros H. only_ValueError. Qed.
#[local] Hint Resolve _parse_isoformat_date_raises : raises.

Lemma hh_mm_ss_loop_raises todo comp tstr pos has_sep comps e :
  hh_mm_ss_loop todo comp tstr pos has_sep comps = Raise e -> e = ValueError.
Proof.
  revert comp pos has_sep comps.
  induction todo as [|todo IH]; intros comp pos has_sep comps H; simpl in H.
  - discriminate.
  - only_ValueError.
Qed.
#[local] Hint Resolve hh_mm_ss_loop_raises : raises.

Lemma _parse_hh_mm_ss_ff_raises s e :
  _parse_hh_mm_ss_ff s = Raise e -> e = ValueError.
Proof. unfold _parse_hh_mm_ss_ff. intros H. only_ValueError. Qed.
#[local] Hint Resolve _parse_hh_mm_ss_ff_raises : raises.

Lemma timezone_raises off e : timezone off = Raise e -> e = ValueError.
Proof. unfold timezone. intros H. only_ValueError. Qed.
#[local] Hint Resolve timezone_raises : raises.

Lemma _parse_isoformat_time_raises s e :
  _parse_isoformat_time s = Raise e -> e = ValueError.
Proof. unfold _parse_isoformat_time. intros H. only_ValueError. Qed.
#[local] Hint Resolve _parse_isoformat_time_raises : raises.

Lemma datetime_new_raises y m d h mi s us tz e :
  datetime_new y m d h mi s us tz = Raise e -> e = ValueError.
Proof.
  unfold datetime_new, _check_date_fields, _check_time_fields.
  intros H. only_ValueError.
Qed.
#[local] Hint Resolve datetime_new_raises : raises.









(** ** Building an item from the metadata of a page *)


Lemma meta_getitem_None (meta : gmap string string) k :
  meta !! k = None -> meta_getitem meta k = Raise (KeyError k).
Proof. unfold meta_getitem. by intros ->. Qed.




Example C5_malformed_date :
  fromisoformat "15 January 2024" = Raise ValueError
  /\ fromisoformat "2024-02-30" = Raise ValueError
  /\ fromisoformat "2024-01-15T10:00:00Z"
     = Ok (mk_datetime 2024 1 15 10 0 0 0 (Some UTC)).
Proof. repeat split. Qed.

(** C3: [from_meta] raises [KeyError(":og:title")] when the title key is
    absent, [KeyError(":og:description")] when the title is there and the
    description key is absent, and with both keys it returns an item as
    soon as the timestamp resolves (and the exception of the timestamp
    otherwise).  No default stands in for a missing title or description. *)
Theorem C3_required_fields `{Platform} (page_name : string)
    (meta : gmap string string) (app : Sphinx) (fs : FileSystem) :
  match meta !! ":og:title", meta !! ":og:description" with
  | None, _ =>
      RSSItem.from_meta page_name meta app fs = Raise (KeyError ":og:title")
  | Some _, None =>
      RSSItem.from_meta page_name meta app fs
      = Raise (KeyError ":og:description")
  | Some title, Some description =>
      match RSSItem.get_date_updated page_name meta app fs with
      | Ok date =>
          RSSItem.from_meta page_name meta app fs
          = Ok (RSSItem.mk title date description
                  (urljoin (html_baseurl app) (get_target_uri app page_name))
                  (default "pyOpenSci" (meta !! ":og:author")))
      | Raise e => RSSItem.from_meta page_name meta app fs = Raise e
      end
  end.
Proof.
  unfold RSSItem.from_meta, meta_getitem.
  destruct (meta !! ":og:title") as [title|]; [| done].
  destruct (meta !! ":og:description") as [description|]; [| done].
  simpl. by destruct (RSSItem.get_date_updated page_name meta app fs).
Qed.



(** ** The feed object *)

(** C10: [render] leaves the feed as it found it, whether it returns the
    document or raises: [items] holds the same entries in the same order,
    and the other fields are untouched. *)
Theorem C10_render_leaves_feed_unchanged (self : RSSFeed.t) :
  snd (RSSFeed.render self) = self
  /\ RSSFeed.items (snd (RSSFeed.render self)) = RSSFeed.items self.
Proof.
  assert (E : snd (RSSFeed.render self) = self); [| by rewrite E].
  unfold RSSFeed.render, mbind, stateM_bind, mret, stateM_ret, gets, lift.
  destruct (sorted datetime_lt (RSSFeed.items self) RSSItem.date true);
    [| done].
  destruct (comprehension RSSItem.render a); [| done].
  by destruct (_format_rfc_2822 (RSSFeed.last_build_date self)).
Qed.

(** The default build date is the clock at import, whenever and however
    often the feed is constructed. *)
Lemma new_reads_class_default `{Platform} (w_import w : World)
    (items : list RSSItem.t) :
  exists feed,
    RSSFeed.new (RSSFeed.class_body w_import) items w = (Ok feed, w)
    /\ RSSFeed.items feed = items
    /\ RSSFeed.last_build_date feed = now w_import.
Proof. eexists. repeat split. Qed.

(** C2, evaluated: the module is imported at 10:00:00 and two feeds are
    constructed without a build date, at 10:05:00 and at 10:10:00.  Both
    carry 10:00:00, the time of the import, and neither carries the time of
    its construction. *)
Theorem C2_build_date_frozen_at_import :
  let P := utc_machine in
  let t0 := 1705312800 * 1000000000 in
  let cls := RSSFeed.class_body (sample_world t0) in
  let w1 := sample_world (t0 + 300 * 1000000000) in
  let w2 := sample_world (t0 + 600 * 1000000000) in
  exists feed1 feed2,
    RSSFeed.new cls [] w1 = (Ok feed1, w1)
    /\ RSSFeed.new cls [] w2 = (Ok feed2, w2)
    /\ now w1 = mk_datetime 2024 1 15 10 5 0 0 None
    /\ now w2 = mk_datetime 2024 1 15 10 10 0 0 None
    /\ RSSFeed.last_build_date feed1 = mk_datetime 2024 1 15 10 0 0 0 None
    /\ RSSFeed.last_build_date feed2 = mk_datetime 2024 1 15 10 0 0 0 None
    /\ RSSFeed.last_build_date feed1 <> now w1
    /\ RSSFeed.last_build_date feed2 <> now w2.
Proof.
  do 2 eexists. repeat split; [vm_compute; reflexivity ..| |]; vm_compute; discriminate.
Qed.

(** ** The build step *)

Lemma prefix_cons (a b : ascii) (p s : string) :
  String.prefix (String a p) (String b s)
  = if ascii_dec a b then String.prefix p s else false.
Proof. reflexivity. Qed.

Lemma startswith_spec (s p : string) :
  startswith s p = true <-> exists rest, s = p +:+ rest.
Proof.
  unfold startswith. revert s.
  induction p as [|a p IH]; intros s.
  - split; [intros _; by exists s | by destruct s].
  - destruct s as [|b s]; [split; [done | by intros [? [=]]] |].
    rewrite prefix_cons.
    destruct (ascii_dec a b) as [<- | Hne].
    + rewrite IH. split.
      * intros [rest ->]. by exists rest.
      * intros [rest [= ->]]. by exists rest.
    + split; [done | intros [rest [= -> _]]; done].
Qed.

Lemma dict_getitem_key {V} (d : list (string * V)) (k : string) :
  k ∈ d.*1 -> exists v, dict_getitem d k = Ok v.
Proof.
  induction d as [|[k' v] d IH]; simpl; [by intros ?%elem_of_nil |].
  intros Hk. destruct (String.eqb k' k) eqn:E; [eauto |].
  apply elem_of_cons in Hk as [-> | Hk]; [| eauto].
  by rewrite String.eqb_refl in E.
Qed.

Lemma tutorials_spec (metadata : list (string * gmap string string)) t :
  t ∈ tutorials metadata
  <-> t ∈ metadata.*1 /\ exists rest, t = "tutorials/" +:+ rest.
Proof.
  unfold tutorials. rewrite list_elem_of_filter, startswith_spec. tauto.
Qed.

Lemma comprehension_Ok {A B} (f : A -> result B) l ys :
  comprehension f l = Ok ys -> Forall2 (fun x y => f x = Ok y) l ys.
Proof.
  revert ys; induction l as [|x l IH]; intros ys; simpl.
  - intros [= <-]. constructor.
  - destruct (f x) as [y|] eqn:Ex; [| done]. simpl.
    destruct (comprehension f l) as [ys'|]; [| done]. simpl.
    intros [= <-]. constructor; eauto.
Qed.

Lemma comprehension_Raise {A B} (f : A -> result B) l x e :
  x ∈ l -> f x = Raise e ->
  exists x' e', x' ∈ l /\ f x' = Raise e' /\ comprehension f l = Raise e'.
Proof.
  induction l as [|a l IH]; [by intros ?%elem_of_nil |].
  intros Hx Hf. simpl.
  destruct (f a) as [y|e0] eqn:Ea.
  - apply elem_of_cons in Hx as [-> | Hx]; [congruence |].
    destruct (IH Hx Hf) as (x' & e' & Hx' & Hf' & ->).
    exists x', e'. split; [by right | done].
  - exists a, e0. split; [by left | done].
Qed.

Lemma generate_unfold `{Platform} cls app w :
  generate_tutorials_feed cls app w
  = let w0 := mk_World (clock w) (fs w)
                (log w ++ [Info "Generating RSS feed for tutorials"]) in
    match feed_items app (fs w) with
    | Raise e => (Raise e, w0)
    | Ok its =>
        let feed := RSSFeed.init cls its None None None None None None in
        let path := path_join (outdir app) "tutorials.rss" in
        match open_w path w0 with
        | (Raise e, w1) => (Raise e, w1)
        | (Ok _, w1) =>
            match RSSFeed.render feed with
            | (Raise e, _) => (Raise e, w1)
            | (Ok text, feed') =>
                (logger (Info ("Generated RSS feed for tutorials, wrote to "
                               +:+ path));;
                 logger (Debug_feed_items (RSSFeed.items feed')))
                  (snd (write path text w1))
            end
        end
    end.
Proof.
  unfold generate_tutorials_feed, mbind, stateM_bind, gets, lift, logger,
    modify, RSSFeed.new, mret, stateM_ret, call. simpl.
  destruct (feed_items app (fs w)); [| done].
  destruct (open_w _ _) as [[[]|] ?]; [| done].
  by destruct (RSSFeed.render _) as [[|] ?].
Qed.

Lemma feed_items_Ok `{Platform} app fs its :
  feed_items app fs = Ok its ->
  Forall2
    (fun t item =>
       exists m, dict_getitem (metadata app) t = Ok m
                 /\ RSSItem.from_meta t m app fs = Ok item)
    (tutorials (metadata app)) its.
Proof.
  intros Hits. apply comprehension_Ok in Hits.
  eapply Forall2_impl; [exact Hits |].
  intros t item Ht. simpl in Ht.
  destruct (dict_getitem (metadata app) t) as [m|]; [eauto | done].
Qed.

(** C9: the pages selected are the keys of the metadata that start with
    ["tutorials/"], all of them and no other; and when the build step
    succeeds, the document written to [outdir / "tutorials.rss"] is the
    rendering of a feed whose items are, one for one and in that order,
    the items built from the selected pages. *)
Theorem C9_feed_holds_exactly_the_tutorials `{Platform}
    (cls : RSSFeed.class) (app : Sphinx) (w : World) :
  (forall t,
     t ∈ tutorials (metadata app)
     <-> t ∈ (metadata app).*1 /\ exists rest, t = "tutorials/" +:+ rest)
  /\ forall w',
       generate_tutorials_feed cls app w = (Ok tt, w') ->
       exists its text,
         Forall2
           (fun t item =>
              exists m, dict_getitem (metadata app) t = Ok m
                        /\ RSSItem.from_meta t m app (fs w) = Ok item)
           (tutorials (metadata app)) its
         /\ fst (RSSFeed.render
                   (RSSFeed.init cls its None None None None None None))
            = Ok text
         /\ files (fs w') !! path_join (outdir app) "tutorials.rss"
            = Some (mk_file text (clock w)).
Proof.
  split; [intros t; apply tutorials_spec |].
  intros w'. rewrite generate_unfold.
  destruct (feed_items app (fs w)) as [its|] eqn:Hits; [| done].
  cbv zeta. unfold open_w. cbn [fs clock log].
  destruct (writable (fs w) _); [| done].
  destruct (RSSFeed.render _) as [[text|] feed'] eqn:Hr; [| done].
  intros [= <-]. exists its, text.
  split; [by apply feed_items_Ok |].
  split; [by rewrite Hr |].
  cbn. by rewrite lookup_insert_eq.
Qed.

Lemma C9_witness_sample_site :
  let w := sample_world 5 in
  let cls := @RSSFeed.class_body utc_machine (sample_world 0) in
  let w' := snd (@generate_tutorials_feed utc_machine cls sample_app w) in
  @generate_tutorials_feed utc_machine cls sample_app w = (Ok tt, w')
  /\ tutorials (metadata sample_app) = ["tutorials/intro"; "tutorials/publish"]
  /\ exists its text,
       Forall2
         (fun t item =>
            exists m, dict_getitem (metadata sample_app) t = Ok m
                      /\ @RSSItem.from_meta utc_machine t m sample_app (fs w)
                         = Ok item)
         (tutorials (metadata sample_app)) its
       /\ fst (RSSFeed.render
                 (RSSFeed.init cls its None None None None None None))
          = Ok text
       /\ files (fs w') !! path_join (outdir sample_app) "tutorials.rss"
          = Some (mk_file text (clock w)).
Proof.
  intros w cls w'.
  split; [vm_compute; reflexivity |].
  split; [vm_compute; reflexivity |].
  apply (proj2 (@C9_feed_holds_exactly_the_tutorials utc_machine cls
                  sample_app w)).
  vm_compute; reflexivity.
Defined.

(** C7: when [from_meta] raises for a selected page, the build step raises
    too, with the exception of the first selected page that fails; the
    world it leaves differs from the one it found by the first log record
    only, so no file has been created or written and no feed rendered. *)
Theorem C7_failed_item_aborts_build `{Platform} (cls : RSSFeed.class)
    (app : Sphinx) (w : World) (t : string) (m : gmap string string)
    (e : exn) :
  t ∈ tutorials (metadata app) ->
  dict_getitem (metadata app) t = Ok m ->
  RSSItem.from_meta t m app (fs w) = Raise e ->
  exists t' m' e',
    t' ∈ tutorials (metadata app)
    /\ dict_getitem (metadata app) t' = Ok m'
    /\ RSSItem.from_meta t' m' app (fs w) = Raise e'
    /\ feed_items app (fs w) = Raise e'
    /\ generate_tutorials_feed cls app w
       = (Raise e',
          mk_World (clock w) (fs w)
            (log w ++ [Info "Generating RSS feed for tutorials"])).
Proof.
  intros Ht Hm He.
  destruct (comprehension_Raise
              (fun t => m ← dict_getitem (metadata app) t;
                        RSSItem.from_meta t m app (fs w))
              (tutorials (metadata app)) t e Ht) as (t' & e' & Ht' & He' & Hc).
  { by rewrite Hm. }
  assert (Hk : t' ∈ (metadata app).*1) by (apply tutorials_spec in Ht'; tauto).
  destruct (dict_getitem_key _ _ Hk) as [m' Hm'].
  rewrite Hm' in He'. simpl in He'.
  exists t', m', e'. repeat split; try done.
  rewrite generate_unfold. unfold feed_items. by rewrite Hc.
Qed.

Lemma C7_witness_untitled_page :
  let w := sample_world 5 in
  let cls := @RSSFeed.class_body utc_machine (sample_world 0) in
  "tutorials/untitled" ∈ tutorials (metadata broken_app)
  /\ dict_getitem (metadata broken_app) "tutorials/untitled"
     = Ok sample_meta_untitled
  /\ @RSSItem.from_meta utc_machine "tutorials/untitled" sample_meta_untitled
       broken_app (fs w) = Raise (KeyError ":og:title")
  /\ exists t' m' e',
       t' ∈ tutorials (metadata broken_app)
       /\ dict_getitem (metadata broken_app) t' = Ok m'
       /\ @RSSItem.from_meta utc_machine t' m' broken_app (fs w) = Raise e'
       /\ @feed_items utc_machine broken_app (fs w) = Raise e'
       /\ @generate_tutorials_feed utc_machine cls broken_app w
          = (Raise e',
             mk_World (clock w) (fs w)
               (log w ++ [Info "Generating RSS feed for tutorials"])).
Proof.
  intros w cls.
  assert (H1 : "tutorials/untitled" ∈ tutorials (metadata broken_app)).
  { replace (tutorials (metadata broken_app))
      with ["tutorials/intro"; "tutorials/untitled"]
      by (vm_compute; reflexivity).
    right; left. }
  assert (H2 : dict_getitem (metadata broken_app) "tutorials/untitled"
               = Ok sample_meta_untitled) by (vm_compute; reflexivity).
  assert (H3 : @RSSItem.from_meta utc_machine "tutorials/untitled"
                 sample_meta_untitled broken_app (fs w)
               = Raise (KeyError ":og:title")) by (vm_compute; reflexivity).
  split; [exact H1 |]. split; [exact H2 |]. split; [exact H3 |].
  exact (@C7_failed_item_aborts_build utc_machine cls broken_app w
           "tutorials/untitled" sample_meta_untitled _ H1 H2 H3).
Defined.

(** ** The calendar and the order of timestamps *)

Lemma _is_leap_spec y :
  _is_leap y = true <-> (y mod 4 = 0 /\ (y mod 100 <> 0 \/ y mod 400 = 0)).
Proof.
  unfold _is_leap.
  rewrite andb_true_iff, orb_true_iff, negb_true_iff, !Z.eqb_eq, Z.eqb_neq.
  tauto.
Qed.

Lemma _days_before_year_succ y :
  _days_before_year (y + 1) = _days_before_year y + 365 + b2z (_is_leap y).
Proof.
  unfold _days_before_year. cbv zeta.
  replace (y + 1 - 1) with y by lia.
  destruct (_is_leap y) eqn:E; unfold b2z.
  - apply _is_leap_spec in E. Z.div_mod_to_equations. lia.
  - assert (N : ~ (y mod 4 = 0 /\ (y mod 100 <> 0 \/ y mod 400 = 0))).
    { rewrite <- _is_leap_spec. congruence. }
    Z.div_mod_to_equations. lia.
Qed.

Lemma _days_before_year_mono y y' :
  y <= y' -> _days_before_year y <= _days_before_year y'.
Proof.
  unfold _days_before_year. cbv zeta. intros H.
  Z.div_mod_to_equations. lia.
Qed.

Lemma month_cases m :
  1 <= m <= 12 ->
  m = 1 \/ m = 2 \/ m = 3 \/ m = 4 \/ m = 5 \/ m = 6 \/ m = 7 \/ m = 8
  \/ m = 9 \/ m = 10 \/ m = 11 \/ m = 12.
Proof. lia. Qed.

Ltac each_month m H :=
  let C := fresh "C" in
  pose proof (month_cases m H) as C;
  repeat (destruct C as [C | C]; [subst m |]); [.. | subst m].

Ltac eval_tables :=
  repeat match goal with
  | |- context [getitem ?d ?l ?i] =>
      let v := eval vm_compute in (getitem d l i) in
      change (getitem d l i) with v
  end.

Lemma day_of_year_bounds y m d :
  1 <= m <= 12 -> 1 <= d <= _days_in_month y m ->
  1 <= _days_before_month y m + d <= 365 + b2z (_is_leap y).
Proof.
  intros Hm. unfold _days_in_month, _days_before_month.
  destruct (_is_leap y); each_month m Hm; cbn; eval_tables; lia.
Qed.

Lemma day_of_year_month_lt y m d m' :
  1 <= m <= 12 -> 1 <= d <= _days_in_month y m -> 1 <= m' <= 12 ->
  m < m' ->
  _days_before_month y m + d <= _days_before_month y m'.
Proof.
  intros Hm Hd Hm' Hlt. revert Hd. unfold _days_in_month, _days_before_month.
  destruct (_is_leap y); each_month m Hm; each_month m' Hm'; cbn; eval_tables; lia.
Qed.

Lemma _ymd2ord_lt y m d y' m' d' :
  1 <= m <= 12 -> 1 <= d <= _days_in_month y m ->
  1 <= m' <= 12 -> 1 <= d' <= _days_in_month y' m' ->
  y < y' \/ (y = y' /\ (m < m' \/ (m = m' /\ d < d'))) ->
  _ymd2ord y m d < _ymd2ord y' m' d'.
Proof.
  intros Hm Hd Hm' Hd' Hlex. unfold _ymd2ord.
  pose proof (day_of_year_bounds y m d Hm Hd) as B.
  pose proof (day_of_year_bounds y' m' d' Hm' Hd') as B'.
  destruct Hlex as [Hy | [<- [Hmm | [<- Hdd]]]].
  - pose proof (_days_before_year_succ y) as S.
    pose proof (_days_before_year_mono (y + 1) y' ltac:(lia)). lia.
  - pose proof (day_of_year_month_lt y m d m' Hm Hd Hm' Hmm). lia.
  - lia.
Qed.

Lemma valid_datetime_fields dt :
  valid_datetime dt = true ->
  (1 <= month dt <= 12) /\ (1 <= day dt <= _days_in_month (year dt) (month dt))
  /\ (0 <= hour dt <= 23) /\ (0 <= minute dt <= 59)
  /\ (0 <= second dt <= 59) /\ (0 <= microsecond dt <= 999999).
Proof.
  unfold valid_datetime, _check_date_fields, _check_time_fields.
  repeat match goal with
  | |- context [negb (?a && ?b)] =>
      let Ea := fresh in let Eb := fresh in
      destruct a eqn:Ea; [destruct b eqn:Eb |]; cbn [negb andb];
      try discriminate
  end.
  intros _. lia.
Qed.

Lemma _cmp_fields a b :
  valid_datetime a = true -> valid_datetime b = true ->
  _cmp (fields a) (fields b) = Z.sgn (wall_micros a - wall_micros b).
Proof.
  intros Va Vb.
  destruct (valid_datetime_fields a Va) as (Ma & Da & Ha & Mia & Sa & Ua).
  destruct (valid_datetime_fields b Vb) as (Mb & Db & Hb & Mib & Sb & Ub).
  pose proof (_ymd2ord_lt (year a) (month a) (day a)
                (year b) (month b) (day b) Ma Da Mb Db) as Lab.
  pose proof (_ymd2ord_lt (year b) (month b) (day b)
                (year a) (month a) (day a) Mb Db Ma Da) as Lba.
  assert (E : year a = year b -> month a = month b -> day a = day b ->
              _ymd2ord (year a) (month a) (day a)
              = _ymd2ord (year b) (month b) (day b)) by (by intros -> -> ->).
  unfold fields, wall_micros, toordinal in *. cbn [_cmp].
  repeat
    (match goal with
     | |- (if ?x <? ?y then _ else _) = _ => destruct (Z.ltb_spec x y)
     end; cbv iota);
  try specialize (Lab ltac:(lia)); try specialize (Lba ltac:(lia));
  try specialize (E ltac:(lia) ltac:(lia) ltac:(lia));
  first [ rewrite Z.sgn_neg by lia
        | rewrite Z.sgn_pos by lia
        | rewrite Z.sgn_null by lia ];
  reflexivity.
Qed.

Lemma datetime_cmp_same_kind a b :
  valid_datetime a = true -> valid_datetime b = true ->
  (naive a /\ naive b) \/ (aware a /\ aware b) ->
  datetime_cmp a b = Ok (Z.sgn (instant a - instant b)).
Proof.
  intros Va Vb Hk. unfold datetime_cmp, datetime_sub, instant, utcoffset.
  pose proof (_cmp_fields a b Va Vb) as Hc.
  destruct Hk as [[Ha Hb] | [[oa Ha] [ob Hb]]];
    unfold naive in *; rewrite Ha, Hb; cbv zeta; cbn [default].
  - rewrite bool_decide_eq_true_2 by done. rewrite Hc. do 2 f_equal. lia.
  - destruct (decide (oa = ob)) as [-> | Hne].
    + rewrite bool_decide_eq_true_2 by done. rewrite Hc. do 2 f_equal. lia.
    + rewrite bool_decide_eq_false_2 by congruence.
      destruct (Z.eqb_spec oa ob) as [? | _]; [done |].
      cbn [mbind result_bind]. f_equal. cbv [id].
      replace (wall_micros a - oa - (wall_micros b - ob))
        with (wall_micros a - wall_micros b + ob - oa) by lia.
      set (diff := wall_micros a - wall_micros b + ob - oa).
      destruct (Z.ltb_spec diff 0); [by rewrite Z.sgn_neg |].
      destruct (Z.eqb_spec diff 0) as [-> | ?]; [done |].
      by rewrite Z.sgn_pos by lia.
Qed.

Lemma datetime_lt_same_kind a b :
  valid_datetime a = true -> valid_datetime b = true ->
  (naive a /\ naive b) \/ (aware a /\ aware b) ->
  datetime_lt a b = Ok (instant a <? instant b).
Proof.
  intros Va Vb Hk. unfold datetime_lt.
  rewrite (datetime_cmp_same_kind a b Va Vb Hk). simpl. f_equal.
  destruct (Z.ltb_spec (instant a) (instant b)).
  - rewrite Z.sgn_neg by lia. done.
  - destruct (Z.ltb_spec (Z.sgn (instant a - instant b)) 0); [| done].
    pose proof (Z.sgn_nonneg (instant a - instant b)). lia.
Qed.

Lemma same_time_same_kind a b :
  valid_datetime a = true -> valid_datetime b = true ->
  (naive a /\ naive b) \/ (aware a /\ aware b) ->
  same_time a b = true <-> instant b = instant a.
Proof.
  intros Va Vb Hk. unfold same_time.
  rewrite (datetime_cmp_same_kind a b Va Vb Hk), Z.eqb_eq, Z.sgn_null_iff.
  lia.
Qed.

(** ** Sorting *)

Lemma filter_iff_Forall {A} (P Q : A -> Prop) `{!forall x, Decision (P x)}
    `{!forall x, Decision (Q x)} (l : list A) :
  Forall (fun x => P x <-> Q x) l -> filter P l = filter Q l.
Proof.
  induction 1 as [|x l Hx _ IH]; [done |].
  rewrite !filter_cons, IH.
  destruct (decide (P x)), (decide (Q x)); tauto.
Qed.

Lemma filter_none {A} (P : A -> Prop) `{!forall x, Decision (P x)}
    (l : list A) :
  Forall (fun x => ~ P x) l -> filter P l = [].
Proof.
  induction 1 as [|x l Hx _ IH]; [done |].
  by rewrite filter_cons_False.
Qed.

Lemma filter_rev {A} (P : A -> Prop) `{!forall x, Decision (P x)}
    (l : list A) :
  filter P (List.rev l) = List.rev (filter P l).
Proof.
  induction l as [|x l IH]; [done |].
  cbn [List.rev]. rewrite filter_app, IH, !filter_cons, filter_nil.
  destruct (decide (P x)); [done |].
  by rewrite app_nil_r.
Qed.

Lemma StronglySorted_rev {A} (R : relation A) (l : list A) :
  StronglySorted R l -> StronglySorted (flip R) (List.rev l).
Proof.
  induction 1 as [|x l _ IH Hx]; [constructor |].
  cbn [List.rev]. apply StronglySorted_app_2; [| done | repeat constructor].
  intros y z Hy ->%list_elem_of_singleton.
  apply list_elem_of_In, in_rev, list_elem_of_In in Hy.
  rewrite Forall_forall in Hx. by apply Hx.
Qed.

Section stable_sort.
Context {K A : Type} (lt : K -> K -> result bool) (key : A -> K).
(** The keys that [lt] can order, and where it puts them. *)
Context (ok : K -> Prop) (rank : K -> Z).
Hypothesis lt_rank :
  forall a b, ok a -> ok b -> lt a b = Ok (rank a <? rank b).

Local Abbreviation le := (fun x y : A => rank (key x) <= rank (key y)).
Local Abbreviation tied k := (fun x : A => rank (key x) = k).

Lemma insort_spec (pivot : A) (prefix : list A) :
  ok (key pivot) -> Forall (fun x => ok (key x)) prefix ->
  StronglySorted le prefix ->
  exists r,
    insort lt key pivot prefix = Ok r
    /\ r ≡ₚ prefix ++ [pivot]
    /\ StronglySorted le r
    /\ forall k, filter (tied k) r = filter (tied k) (prefix ++ [pivot]).
Proof.
  intros Hp. induction prefix as [|e rest IH]; intros Hok Hs.
  - exists [pivot]. repeat split; try done. repeat constructor.
  - apply Forall_cons in Hok as [He Hrest].
    apply StronglySorted_inv in Hs as [Hs Hle].
    cbn [insort]. rewrite (lt_rank _ _ Hp He). cbn [mbind result_bind].
    destruct (Z.ltb_spec (rank (key pivot)) (rank (key e))) as [Hlt | Hge].
    + exists (pivot :: e :: rest). split; [done |].
      assert (Hstrict : Forall (fun x => rank (key pivot) < rank (key x))
                          (e :: rest)).
      { constructor; [lia |].
        eapply Forall_impl; [exact Hle |]. cbv beta. intros; lia. }
      assert (Hall : Forall (le pivot) (e :: rest)).
      { eapply Forall_impl; [exact Hstrict |]. cbv beta. intros; lia. }
      split; [by rewrite <- Permutation_cons_append |].
      split; [constructor; [by constructor | done] |].
      intros k. rewrite filter_app, !(filter_cons _ pivot), filter_nil.
      destruct (decide (rank (key pivot) = k)) as [Hk | Hk].
      * replace (filter (tied k) (e :: rest)) with (@nil A); [done |].
        symmetry. apply filter_none.
        eapply Forall_impl; [exact Hstrict |].
        cbv beta. intros; lia.
      * by rewrite app_nil_r.
    + destruct (IH Hrest Hs) as (r & -> & Hperm & Hsr & Hf).
      exists (e :: r). split; [done |].
      split; [by rewrite Hperm |].
      split.
      * constructor; [done |]. rewrite Hperm.
        apply Forall_app. split; [done |].
        repeat constructor. lia.
      * intros k. rewrite <- app_comm_cons, !(filter_cons _ e), Hf.
        by destruct (decide (rank (key e) = k)).
Qed.

Lemma sort_from_spec (prefix todo : list A) :
  Forall (fun x => ok (key x)) prefix ->
  Forall (fun x => ok (key x)) todo ->
  StronglySorted le prefix ->
  exists r,
    sort_from lt key prefix todo = Ok r
    /\ r ≡ₚ prefix ++ todo
    /\ StronglySorted le r
    /\ forall k, filter (tied k) r = filter (tied k) (prefix ++ todo).
Proof.
  revert prefix. induction todo as [|x todo IH]; intros prefix Hp Ht Hs.
  - exists prefix. rewrite app_nil_r. by repeat split.
  - apply Forall_cons in Ht as [Hx Ht].
    destruct (insort_spec x prefix Hx Hp Hs) as (r1 & E1 & P1 & S1 & F1).
    assert (Hr1 : Forall (fun x => ok (key x)) r1).
    { rewrite P1. apply Forall_app. split; [done | by constructor]. }
    destruct (IH r1 Hr1 Ht S1) as (r & E & P & S & F).
    exists r. cbn [sort_from]. rewrite E1. cbn [mbind result_bind].
    split; [done |].
    split; [by rewrite P, P1, <- app_assoc |].
    split; [done |].
    intros k. rewrite F, !filter_app, F1, filter_app, <- app_assoc.
    f_equal. by rewrite <- filter_app.
Qed.

Lemma sorted_reverse_spec (l : list A) :
  Forall (fun x => ok (key x)) l ->
  exists r,
    sorted lt l key true = Ok r
    /\ r ≡ₚ l
    /\ StronglySorted (fun x y => rank (key y) <= rank (key x)) r
    /\ forall k, filter (tied k) r = filter (tied k) l.
Proof.
  intros Hl.
  assert (Hrev : Forall (fun x => ok (key x)) (List.rev l)).
  { by rewrite <- Permutation_rev. }
  destruct (sort_from_spec [] (List.rev l) ltac:(constructor) Hrev
              ltac:(constructor)) as (s & E & P & S & F).
  exists (List.rev s). unfold sorted. rewrite E.
  split; [done |].
  split; [by rewrite <- Permutation_rev, P, app_nil_l, <- Permutation_rev |].
  split; [exact (StronglySorted_rev _ _ S) |].
  intros k. by rewrite filter_rev, F, app_nil_l, filter_rev, rev_involutive.
Qed.
End stable_sort.

Lemma StronglySorted_impl_elem_of {A} (R R' : relation A) (l : list A) :
  (forall x y, x ∈ l -> y ∈ l -> R x y -> R' x y) ->
  StronglySorted R l -> StronglySorted R' l.
Proof.
  intros H S. induction S as [|x l _ IH Hx]; [constructor |].
  constructor.
  - apply IH. intros y z Hy Hz. apply H; by right.
  - rewrite Forall_forall in *. intros y Hy.
    apply H; [by left | by right | by apply Hx].
Qed.

Lemma comprehension_total {A B} (f : A -> result B) (l : list A) :
  (forall x, exists y, f x = Ok y) -> exists ys, comprehension f l = Ok ys.
Proof.
  intros H. induction l as [|x l [ys IH]]; [by exists [] |].
  destruct (H x) as [y Hy]. exists (y :: ys). cbn [comprehension].
  by rewrite Hy, IH.
Qed.




Example tied_feed_order :
  sorted datetime_lt (RSSFeed.items tied_feed) RSSItem.date true
  = Ok [item_at "b" naive_jan20; item_at "a" naive_10h; item_at "c" naive_10h].
Proof. reflexivity. Qed.


(** Such a list comes out of the build step when one page gives its
    [date_updated] with an offset and another gives it without: the build
    raises after [open] has emptied the output file. *)
Example mixed_site_build :
  let P := utc_machine in
  let cls := RSSFeed.class_body (sample_world 0) in
  let '(r, w') := generate_tutorials_feed cls mixed_app (sample_world 5) in
  r = Raise TypeError
  /\ files (fs w') !! "/out/tutorials.rss" = Some (mk_file EmptyString 5).
Proof. vm_compute. split; reflexivity. Qed.

(** * Further properties *)

(** ** More on the build step *)

Lemma render_keeps_self (self : RSSFeed.t) :
  snd (RSSFeed.render self) = self.
Proof.
  unfold RSSFeed.render, mbind, stateM_bind, mret, stateM_ret, gets, lift.
  destruct (sorted datetime_lt (RSSFeed.items self) RSSItem.date true);
    [| done].
  destruct (comprehension RSSItem.render a); [| done].
  by destruct (_format_rfc_2822 (RSSFeed.last_build_date self)).
Qed.

Lemma render_pair (self : RSSFeed.t) :
  RSSFeed.render self = (fst (RSSFeed.render self), self).
Proof.
  rewrite <- (render_keeps_self self) at 3. by destruct (RSSFeed.render self).
Qed.


(** X2: when the items are built and the output path cannot be opened for
    writing, the build step raises [OSError] for that path, after the
    first log record and before anything is rendered; the file system is
    as it was. *)
Theorem X2_unwritable_output_raises_OSError `{Platform} (cls : RSSFeed.class)
    (app : Sphinx) (w : World) (its : list RSSItem.t) :
  let path := path_join (outdir app) "tutorials.rss" in
  feed_items app (fs w) = Ok its ->
  writable (fs w) path = false ->
  generate_tutorials_feed cls app w
  = (Raise (OSError path),
     mk_World (clock w) (fs w)
       (log w ++ [Info "Generating RSS feed for tutorials"])).
Proof.
  intros path Hits Hw. rewrite generate_unfold, Hits. cbv zeta.
  unfold open_w. cbn [fs clock log files writable]. fold path. by rewrite Hw.
Qed.

(** X3: when the items are built, the output file is opened and
    [render] then raises, the exception leaves the build step and the
    output file stays behind empty: [open] had already cut it, and what it
    held before is lost. *)
Theorem X3_failed_render_leaves_empty_file `{Platform} (cls : RSSFeed.class)
    (app : Sphinx) (w : World) (its : list RSSItem.t) (e : exn) :
  let path := path_join (outdir app) "tutorials.rss" in
  feed_items app (fs w) = Ok its ->
  writable (fs w) path = true ->
  fst (RSSFeed.render (RSSFeed.init cls its None None None None None None))
  = Raise e ->
  generate_tutorials_feed cls app w
  = (Raise e,
     mk_World (clock w)
       (mk_fs (<[path := mk_file EmptyString (clock w)]> (files (fs w)))
              (writable (fs w)))
       (log w ++ [Info "Generating RSS feed for tutorials"])).
Proof.
  intros path Hits Hw Hr. rewrite generate_unfold, Hits. cbv zeta.
  unfold open_w. cbn [fs clock log files writable]. fold path. rewrite Hw.
  by rewrite render_pair, Hr.
Qed.

(** X4: whatever its outcome, the build step leaves the clock and the
    access rights alone, changes no file other than
    [outdir / "tutorials.rss"], and only appends to the log, beginning with
    the record that announces the build. *)
Theorem X4_build_touches_one_file `{Platform} (cls : RSSFeed.class)
    (app : Sphinx) (w : World) :
  let path := path_join (outdir app) "tutorials.rss" in
  let w' := snd (generate_tutorials_feed cls app w) in
  clock w' = clock w
  /\ writable (fs w') = writable (fs w)
  /\ (forall p, p <> path -> files (fs w') !! p = files (fs w) !! p)
  /\ exists more,
       log w' = log w ++ Info "Generating RSS feed for tutorials" :: more.
Proof.
  intros path w'. subst w'. rewrite generate_unfold.
  destruct (feed_items app (fs w)) as [its|e].
  2:{ cbn. repeat split; try done. by exists []. }
  cbv zeta. unfold open_w. cbn [fs clock log files writable]. fold path.
  destruct (writable (fs w) path).
  2:{ cbn. repeat split; try done. by exists []. }
  rewrite render_pair.
  destruct (fst (RSSFeed.render _)) as [text|e].
  - unfold write, logger, modify, mbind, stateM_bind. cbn.
    repeat split; try done.
    + intros p Hp. by rewrite !lookup_insert_ne.
    + eexists. by rewrite <- !app_assoc.
  - cbn. repeat split; try done.
    + intros p Hp. by rewrite lookup_insert_ne.
    + by exists [].
Qed.

(** ** Which exceptions can leave *)

Lemma datetime_lt_raises a b e : datetime_lt a b = Raise e -> e = TypeError.
Proof.
  unfold datetime_lt, datetime_cmp, datetime_sub. intros H.
  repeat raises_step; done.
Qed.

Lemma insort_raises {A} (key : A -> datetime) pivot prefix e :
  insort datetime_lt key pivot prefix = Raise e -> e = TypeError.
Proof.
  induction prefix as [|x rest IH]; cbn [insort]; [done |].
  intros H. apply bind_raises in H as [H | (b & _ & H)].
  - eauto using datetime_lt_raises.
  - destruct b; [done |].
    apply bind_raises in H as [H | (? & _ & H)]; [eauto | done].
Qed.

Lemma sort_from_raises {A} (key : A -> datetime) prefix todo e :
  sort_from datetime_lt key prefix todo = Raise e -> e = TypeError.
Proof.
  revert prefix. induction todo as [|x todo IH]; intros prefix;
    cbn [sort_from]; [done |].
  intros H. apply bind_raises in H as [H | (? & _ & H)];
    eauto using insort_raises.
Qed.

Lemma sorted_raises {A} (key : A -> datetime) (l : list A) reverse e :
  sorted datetime_lt l key reverse = Raise e -> e = TypeError.
Proof.
  unfold sorted. intros H.
  apply bind_raises in H as [H | (? & _ & H)];
    [eauto using sort_from_raises | done].
Qed.

Lemma comprehension_render (l : list RSSItem.t) :
  exists texts, comprehension RSSItem.render l = Ok texts.
Proof.
  apply comprehension_total. intros it. eexists. apply render_item_ok.
Qed.

Lemma render_raises (self : RSSFeed.t) e :
  fst (RSSFeed.render self) = Raise e -> e = TypeError.
Proof.
  unfold RSSFeed.render, mbind, stateM_bind, mret, stateM_ret, gets, lift.
  destruct (sorted datetime_lt (RSSFeed.items self) RSSItem.date true)
    as [r|e0] eqn:E.
  - destruct (comprehension_render r) as [texts ->].
    by rewrite _format_rfc_2822_ok.
  - cbn. intros [= <-]. eauto using sorted_raises.
Qed.

(** X5: [RSSFeed.render] either returns a document or raises
    [TypeError], nothing else; and a feed with no entry or with one entry
    always renders, whatever its timestamp is, since nothing is compared. *)
Theorem X5_render_raises_only_TypeError (self : RSSFeed.t) :
  ((exists text, fst (RSSFeed.render self) = Ok text)
   \/ fst (RSSFeed.render self) = Raise TypeError)
  /\ ((length (RSSFeed.items self) <= 1)%nat ->
      exists text, fst (RSSFeed.render self) = Ok text).
Proof.
  split.
  - destruct (fst (RSSFeed.render self)) as [text|e] eqn:E; [eauto |].
    right. by rewrite (render_raises _ _ E).
  - intros Hlen.
    unfold RSSFeed.render, mbind, stateM_bind, mret, stateM_ret, gets, lift.
    destruct (RSSFeed.items self) as [|x [|y l]]; cbn in Hlen; [| | lia].
    + cbn. eauto.
    + cbn [sorted List.rev app sort_from insort mbind result_bind].
      destruct (comprehension_render [x]) as [texts ->].
      rewrite _format_rfc_2822_ok. cbn. eauto.
Qed.

Lemma X5_witness_single_entry :
  (length (RSSFeed.items (feed_of [item_at "a" aware_10h_plus5])) <= 1)%nat
  /\ exists text,
       fst (RSSFeed.render (feed_of [item_at "a" aware_10h_plus5])) = Ok text.
Proof.
  split; [cbn; lia |].
  apply (proj2 (X5_render_raises_only_TypeError
                  (feed_of [item_at "a" aware_10h_plus5]))).
  cbn; lia.
Defined.







(** ** The sorted order is canonical *)

Section canonical_order.
Context {K A : Type} (lt : K -> K -> result bool) (key : A -> K).
Context (ok : K -> Prop) (rank : K -> Z).
Hypothesis lt_rank :
  forall a b, ok a -> ok b -> lt a b = Ok (rank a <? rank b).

Local Abbreviation desc := (fun x y : A => rank (key y) <= rank (key x)).
Local Abbreviation tied k := (fun x : A => rank (key x) = k).

Lemma descending_unique (l1 l2 : list A) :
  l1 ≡ₚ l2 ->
  StronglySorted desc l1 -> StronglySorted desc l2 ->
  (forall k, filter (tied k) l1 = filter (tied k) l2) ->
  l1 = l2.
Proof.
  revert l2. induction l1 as [|x l1 IH]; intros l2 P S1 S2 F.
  - by apply Permutation_nil in P.
  - destruct l2 as [|y l2]; [by apply Permutation_sym, Permutation_nil in P |].
    apply StronglySorted_inv in S1 as [S1 H1].
    apply StronglySorted_inv in S2 as [S2 H2].
    rewrite Forall_forall in H1, H2.
    assert (Hxy : rank (key x) <= rank (key y)).
    { assert (Hx : x ∈ y :: l2) by (rewrite <- P; by left).
      apply elem_of_cons in Hx as [-> | Hx]; [lia | by apply H2]. }
    assert (Hyx : rank (key y) <= rank (key x)).
    { assert (Hy : y ∈ x :: l1) by (rewrite P; by left).
      apply elem_of_cons in Hy as [-> | Hy]; [lia | by apply H1]. }
    assert (x = y) as <-.
    { specialize (F (rank (key x))).
      rewrite filter_cons_True in F by done.
      rewrite filter_cons_True in F by lia. by injection F. }
    f_equal. apply IH; [by apply Permutation_cons_inv in P | done | done |].
    intros k. specialize (F k). rewrite !filter_cons in F.
    destruct (decide (rank (key x) = k)); [by injection F | done].
Qed.

Lemma sorted_canonical (l1 l2 : list A) :
  Forall (fun x => ok (key x)) l1 ->
  l1 ≡ₚ l2 ->
  (forall k, filter (tied k) l1 = filter (tied k) l2) ->
  sorted lt l1 key true = sorted lt l2 key true.
Proof.
  intros Hok P F.
  assert (Hok2 : Forall (fun x => ok (key x)) l2) by (by rewrite <- P).
  destruct (sorted_reverse_spec lt key ok rank lt_rank l1 Hok)
    as (r1 & -> & P1 & S1 & F1).
  destruct (sorted_reverse_spec lt key ok rank lt_rank l2 Hok2)
    as (r2 & -> & P2 & S2 & F2).
  f_equal. apply descending_unique; [by rewrite P1, P2 | done | done |].
  intros k. by rewrite F1, F2.
Qed.

Lemma sorted_fixed (l : list A) :
  Forall (fun x => ok (key x)) l ->
  StronglySorted desc l ->
  sorted lt l key true = Ok l.
Proof.
  intros Hok S.
  destruct (sorted_reverse_spec lt key ok rank lt_rank l Hok)
    as (r & -> & P & Sr & F).
  f_equal. by apply descending_unique.
Qed.
End canonical_order.

Lemma same_kind_cases (l : list RSSItem.t) :
  Forall (fun it => valid_datetime (RSSItem.date it) = true) l ->
  Forall (fun it => naive (RSSItem.date it)) l
  \/ Forall (fun it => aware (RSSItem.date it)) l ->
  exists ok : datetime -> Prop,
    (forall a b, ok a -> ok b ->
       datetime_lt a b = Ok (instant a <? instant b))
    /\ (forall a b, ok a -> ok b ->
          same_time a b = true <-> instant b = instant a)
    /\ Forall (fun it => ok (RSSItem.date it)) l.
Proof.
  intros Hv [Hn | Ha].
  - exists (fun d => valid_datetime d = true /\ naive d). split; [| split].
    + intros a b [] []. apply datetime_lt_same_kind; auto.
    + intros a b [] []. apply same_time_same_kind; auto.
    + rewrite Forall_forall in *. auto.
  - exists (fun d => valid_datetime d = true /\ aware d). split; [| split].
    + intros a b [] []. apply datetime_lt_same_kind; auto.
    + intros a b [] []. apply same_time_same_kind; auto.
    + rewrite Forall_forall in *. auto.
Qed.

(** X7: for timestamps that can be ordered, the sorted order, and with it
    the rendered document, depends on the input order only through the
    relative order of entries with equal timestamps: two lists with the
    same entries that agree on that give the same result. *)
Theorem X7_order_depends_on_ties_only (l1 l2 : list RSSItem.t) :
  Forall (fun it => valid_datetime (RSSItem.date it) = true) l1 ->
  Forall (fun it => naive (RSSItem.date it)) l1
  \/ Forall (fun it => aware (RSSItem.date it)) l1 ->
  l1 ≡ₚ l2 ->
  (forall it, it ∈ l1 ->
     filter (fun y => same_time (RSSItem.date it) (RSSItem.date y) = true) l1
     = filter (fun y => same_time (RSSItem.date it) (RSSItem.date y) = true)
         l2) ->
  sorted datetime_lt l1 RSSItem.date true
  = sorted datetime_lt l2 RSSItem.date true
  /\ forall last_build_date title link self_link description language,
       fst (RSSFeed.render
              (RSSFeed.mk l1 last_build_date title link self_link description
                 language))
       = fst (RSSFeed.render
                (RSSFeed.mk l2 last_build_date title link self_link
                   description language)).
Proof.
  intros Hv Hk P T.
  destruct (same_kind_cases l1 Hv Hk) as (ok & Hlt & Hst & Hok).
  assert (Hok2 : Forall (fun it => ok (RSSItem.date it)) l2)
    by (by rewrite <- P).
  assert (E : sorted datetime_lt l1 RSSItem.date true
              = sorted datetime_lt l2 RSSItem.date true).
  { apply (sorted_canonical datetime_lt RSSItem.date ok instant Hlt);
      [done | done |].
    intros k.
    destruct (filter (fun x => instant (RSSItem.date x) = k) l1)
      as [|it rest] eqn:E1.
    - symmetry. apply Permutation_nil. by rewrite <- P, E1.
    - assert (Hit : it ∈ filter (fun x => instant (RSSItem.date x) = k) l1)
        by (rewrite E1; by left).
      apply list_elem_of_filter in Hit as [Hk' Hit]. rewrite <- E1.
      rewrite Forall_forall in Hok, Hok2.
      rewrite <- (filter_iff_Forall
                    (fun y => same_time (RSSItem.date it) (RSSItem.date y)
                              = true) _ l1).
      2:{ apply Forall_forall. intros y Hy. rewrite Hst by auto.
          cbv beta. by rewrite Hk'. }
      rewrite <- (filter_iff_Forall
                    (fun y => same_time (RSSItem.date it) (RSSItem.date y)
                              = true) _ l2).
      2:{ apply Forall_forall. intros y Hy. rewrite Hst by auto.
          cbv beta. by rewrite Hk'. }
      by apply T. }
  split; [exact E |].
  intros. unfold RSSFeed.render, mbind, stateM_bind, gets, lift.
  cbn [RSSFeed.items]. rewrite E.
  destruct (sorted datetime_lt l2 RSSItem.date true) as [r|]; [| done].
  cbn. by destruct (comprehension RSSItem.render r).
Qed.

(** X8: for timestamps that can be ordered, a list that is already in
    descending order is returned as it is, and so sorting what [sorted]
    returned changes nothing. *)
Theorem X8_sorted_feed_keeps_its_order (l : list RSSItem.t) :
  Forall (fun it => valid_datetime (RSSItem.date it) = true) l ->
  Forall (fun it => naive (RSSItem.date it)) l
  \/ Forall (fun it => aware (RSSItem.date it)) l ->
  (StronglySorted
     (fun x y => datetime_lt (RSSItem.date x) (RSSItem.date y) = Ok false) l ->
   sorted datetime_lt l RSSItem.date true = Ok l)
  /\ (forall r, sorted datetime_lt l RSSItem.date true = Ok r ->
        sorted datetime_lt r RSSItem.date true = Ok r).
Proof.
  intros Hv Hk.
  destruct (same_kind_cases l Hv Hk) as (ok & Hlt & Hst & Hok).
  split.
  - intros S.
    apply (sorted_fixed datetime_lt RSSItem.date ok instant Hlt); [done |].
    eapply StronglySorted_impl_elem_of; [| exact S].
    rewrite Forall_forall in Hok.
    intros x y Hx Hy. rewrite (Hlt _ _ (Hok x Hx) (Hok y Hy)).
    intros [= Hf]. apply Z.ltb_ge in Hf. lia.
  - intros r Hr.
    destruct (sorted_reverse_spec datetime_lt RSSItem.date ok instant Hlt
                l Hok) as (r' & E & P & S & _).
    rewrite E in Hr. injection Hr as <-.
    apply (sorted_fixed datetime_lt RSSItem.date ok instant Hlt);
      [by rewrite P | done].
Qed.

(** ** More on escaping *)

Lemma list_ascii_of_string_app (a b : string) :
  list_ascii_of_string (a +:+ b)
  = list_ascii_of_string a ++ list_ascii_of_string b.
Proof.
  induction a as [|x a IH]; [done |].
  rewrite append_cons. cbn [list_ascii_of_string]. by rewrite IH.
Qed.

Lemma escape_char_cases (c : ascii) :
  (c = "&"%char /\ escape_char c = "&amp;")
  \/ (c = "<"%char /\ escape_char c = "&lt;")
  \/ (c = ">"%char /\ escape_char c = "&gt;")
  \/ (c <> "&"%char /\ c <> "<"%char /\ c <> ">"%char
      /\ escape_char c = String c EmptyString).
Proof.
  unfold escape_char.
  destruct (Ascii.eqb_spec c "&"); [auto |].
  destruct (Ascii.eqb_spec c "<"); [auto |].
  destruct (Ascii.eqb_spec c ">"); [auto |].
  auto 10.
Qed.

(** X9: the text [escape(_, quote=False)] returns holds neither [<] nor
    [>], so a title, link, description or author cannot open or close an
    element in the rendered item; and a text without [&], [<] and [>] is
    returned unchanged. *)
Theorem X9_escaped_text_has_no_markup (s : string) :
  Forall (fun c => c <> "<"%char /\ c <> ">"%char)
    (list_ascii_of_string (escape s false))
  /\ (Forall (fun c => c <> "&"%char /\ c <> "<"%char /\ c <> ">"%char)
        (list_ascii_of_string s) ->
      escape s false = s).
Proof.
  split.
  - induction s as [|c s IH]; [constructor |].
    rewrite escape_cons, list_ascii_of_string_app. apply Forall_app.
    split; [| done].
    destruct (escape_char_cases c)
      as [[_ ->] | [[_ ->] | [[_ ->] | (_ & Hlt & Hgt & ->)]]];
      repeat constructor; done.
  - induction s as [|c s IH]; [done |].
    cbn [list_ascii_of_string]. intros [(Ha & Hl & Hg) Hs]%Forall_cons.
    rewrite escape_cons, (IH Hs).
    destruct (escape_char_cases c)
      as [[? _] | [[? _] | [[? _] | (_ & _ & _ & ->)]]]; done.
Qed.

Lemma X9_witness_plain_title :
  Forall (fun c => c <> "&"%char /\ c <> "<"%char /\ c <> ">"%char)
    (list_ascii_of_string "Publish")
  /\ escape "Publish" false = "Publish".
Proof.
  assert (H : Forall (fun c => c <> "&"%char /\ c <> "<"%char /\ c <> ">"%char)
                (list_ascii_of_string "Publish"))
    by (repeat constructor; discriminate).
  split; [exact H |].
  exact (proj2 (X9_escaped_text_has_no_markup "Publish") H).
Defined.

(** X10: [escape(_, quote=False)] is injective: two different texts never
    render as the same element content. *)
Theorem X10_escape_is_injective (s1 s2 : string) :
  escape s1 false = escape s2 false -> s1 = s2.
Proof.
  revert s2. induction s1 as [|c1 s1 IH]; intros [|c2 s2].
  - done.
  - rewrite escape_cons, escape_nil.
    destruct (escape_char_cases c2)
      as [[_ ->] | [[_ ->] | [[_ ->] | (_ & _ & _ & ->)]]];
      rewrite !append_cons; discriminate.
  - rewrite escape_cons, escape_nil.
    destruct (escape_char_cases c1)
      as [[_ ->] | [[_ ->] | [[_ ->] | (_ & _ & _ & ->)]]];
      rewrite !append_cons; discriminate.
  - rewrite !escape_cons.
    destruct (escape_char_cases c1)
      as [[-> ->] | [[-> ->] | [[-> ->] | (N1 & N2 & N3 & ->)]]];
    destruct (escape_char_cases c2)
      as [[-> ->] | [[-> ->] | [[-> ->] | (M1 & M2 & M3 & ->)]]];
    rewrite !append_cons, ?append_nil_l; intros E;
    try discriminate E;
    try (injection E as E; f_equal; auto; fail);
    try (injection E as E1 E; congruence).
Qed.

Lemma X10_witness_titles :
  escape "a" false = escape "a" false /\ "a" = "a".
Proof.
  split; [reflexivity |].
  exact (X10_escape_is_injective "a" "a" eq_refl).
Defined.

(** ** What an item is made from *)

(** X11: [from_meta] reads four keys of the metadata and nothing else:
    two mappings that agree on [:og:title], [:og:description],
    [:og:author] and [date_updated] give the same result, item or
    exception. *)
Theorem X11_from_meta_reads_four_keys `{Platform} (page_name : string)
    (meta1 meta2 : gmap string string) (app : Sphinx) (fs : FileSystem) :
  meta1 !! ":og:title" = meta2 !! ":og:title" ->
  meta1 !! ":og:description" = meta2 !! ":og:description" ->
  meta1 !! ":og:author" = meta2 !! ":og:author" ->
  meta1 !! "date_updated" = meta2 !! "date_updated" ->
  RSSItem.from_meta page_name meta1 app fs
  = RSSItem.from_meta page_name meta2 app fs.
Proof.
  intros Ht Hd Ha Hu.
  unfold RSSItem.from_meta, RSSItem.get_date_updated, meta_getitem.
  by rewrite Ht, Hd, Ha, Hu.
Qed.


Lemma dict_getitem_filter {V} (P : string -> Prop)
    `{!forall k, Decision (P k)} (d : list (string * V)) (k : string) :
  P k ->
  dict_getitem (filter (fun kv => P kv.1) d) k = dict_getitem d k.
Proof.
  intros Hk. induction d as [|[k' v] d IH]; [done |].
  rewrite filter_cons. cbn [fst dict_getitem].
  destruct (decide (P k')) as [Hk' | Hk'].
  - cbn [dict_getitem]. by rewrite IH.
  - rewrite IH. destruct (String.eqb_spec k' k) as [-> | _]; done.
Qed.

Lemma fst_filter {V} (P : string -> Prop) `{!forall k, Decision (P k)}
    (d : list (string * V)) :
  (filter (fun kv => P kv.1) d).*1 = filter P (d.*1).
Proof.
  induction d as [|[k v] d IH]; [done |].
  rewrite fmap_cons, !filter_cons. cbn [fst].
  destruct (decide (P k)); [by rewrite fmap_cons, IH | done].
Qed.

Lemma filter_idemp {X} (P : X -> Prop) `{!forall x, Decision (P x)}
    (l : list X) :
  filter P (filter P l) = filter P l.
Proof.
  induction l as [|x l IH]; [done |].
  rewrite filter_cons. destruct (decide (P x)); [| done].
  by rewrite filter_cons_True, IH.
Qed.

Lemma comprehension_ext {X Y} (f g : X -> result Y) (l : list X) :
  Forall (fun x => f x = g x) l -> comprehension f l = comprehension g l.
Proof.
  induction 1 as [|x l Hx _ IH]; [done |].
  cbn [comprehension]. by rewrite Hx, IH.
Qed.

(** X13: pages outside [tutorials/] have no influence on the build step:
    dropping them from the metadata changes neither the items nor the
    outcome, so a page elsewhere with broken metadata cannot fail the
    feed. *)
Theorem X13_other_pages_do_not_matter `{Platform} (cls : RSSFeed.class)
    (app : Sphinx) (w : World) :
  let app' :=
    mk_Sphinx (html_baseurl app) (get_target_uri app) (srcdir app)
      (outdir app)
      (filter (fun kv => startswith kv.1 "tutorials/" = true)
         (metadata app)) in
  feed_items app' (fs w) = feed_items app (fs w)
  /\ generate_tutorials_feed cls app' w = generate_tutorials_feed cls app w.
Proof.
  intros app'.
  assert (E : forall fs, feed_items app' fs = feed_items app fs).
  { intros fs. unfold feed_items, tutorials. subst app'. cbn [metadata].
    pose proof (fst_filter (fun k => startswith k "tutorials/" = true)
                  (metadata app)) as Hfst.
    cbv beta in Hfst. rewrite Hfst, filter_idemp.
    apply comprehension_ext, Forall_forall.
    intros t [Ht _]%list_elem_of_filter.
    pose proof (dict_getitem_filter
                  (fun k => startswith k "tutorials/" = true)
                  (metadata app) t Ht) as Hget.
    cbv beta in Hget. rewrite Hget. reflexivity. }
  split; [apply E |].
  rewrite !generate_unfold, E. reflexivity.
Qed.

(** ** The width of a formatted date *)

Lemma length_append (a b : string) :
  String.length (a +:+ b) = (String.length a + String.length b)%nat.
Proof.
  induction a as [|x a IH]; [done |].
  rewrite append_cons. cbn [String.length]. by rewrite IH.
Qed.

Lemma fmt_d_width (w : nat) (bound : Z) (n : Z) :
  forallb (fun k => (String.length (fmt_d w (Z.of_nat k)) =? w)%nat)
    (seq 0 (Z.to_nat bound)) = true ->
  0 <= n < bound ->
  String.length (fmt_d w n) = w.
Proof.
  intros Hall Hn. rewrite forallb_forall in Hall.
  specialize (Hall (Z.to_nat n)). rewrite Z2Nat.id in Hall by lia.
  apply Nat.eqb_eq, Hall, in_seq. lia.
Qed.

Lemma name_width (names : list string) (i : Z) :
  forallb (fun s => (String.length s =? 3)%nat) names = true ->
  0 <= i < Z.of_nat (length names) ->
  String.length (getitem EmptyString names i) = 3%nat.
Proof.
  intros Hall Hi. rewrite forallb_forall in Hall. unfold getitem.
  destruct (names !! Z.to_nat i) as [s|] eqn:E.
  - apply Nat.eqb_eq, Hall, list_elem_of_In. by eapply list_elem_of_lookup_2.
  - apply lookup_ge_None in E. lia.
Qed.

(** X14: for a well-formed timestamp the text [_format_rfc_2822] returns
    has exactly 29 characters. *)
Theorem X14_pubDate_has_29_characters (dt : datetime) (text : string) :
  valid_datetime dt = true ->
  _format_rfc_2822 dt = Ok text ->
  String.length text = 29%nat.
Proof.
  intros Hv. rewrite _format_rfc_2822_ok. intros [= <-].
  destruct (valid_datetime_fields dt Hv) as (Hm & Hd & Hh & Hmi & Hs & _).
  assert (Hy : 1 <= year dt <= 9999).
  { revert Hv. unfold valid_datetime, _check_date_fields, MINYEAR, MAXYEAR.
    destruct ((1 <=? year dt) && (year dt <=? 9999)) eqn:E; [lia | done]. }
  assert (Hdim : _days_in_month (year dt) (month dt) <= 31).
  { unfold _days_in_month. remember (month dt) as m eqn:Em. clear Em Hd.
    destruct (_is_leap (year dt)); each_month m Hm; cbn; eval_tables; lia. }
  unfold _format_timetuple_and_zone, timetuple.
  cbn [tm_year tm_mon tm_mday tm_hour tm_min tm_sec tm_wday].
  rewrite !length_append.
  rewrite (name_width day_names) by
    (try reflexivity; unfold weekday; cbn [length day_names];
     pose proof (Z.mod_pos_bound (toordinal dt + 6) 7); lia).
  rewrite (name_width month_names) by (try reflexivity; cbn; lia).
  rewrite (fmt_d_width 4 10000 (year dt)) by (try (vm_compute; reflexivity); lia).
  rewrite (fmt_d_width 2 100 (day dt)) by (try (vm_compute; reflexivity); lia).
  rewrite (fmt_d_width 2 100 (hour dt)) by (try (vm_compute; reflexivity); lia).
  rewrite (fmt_d_width 2 100 (minute dt)) by (try (vm_compute; reflexivity); lia).
  rewrite (fmt_d_width 2 100 (second dt)) by (try (vm_compute; reflexivity); lia).
  reflexivity.
Qed.

(** ** Edge cases of the build step *)


(** X15: on a site with no page under [tutorials/] no metadata is looked
    at; the build step succeeds as soon as the output can be written, and
    writes the channel with an empty line in place of the items. *)
Theorem X15_site_without_tutorials `{Platform} (cls : RSSFeed.class)
    (app : Sphinx) (w : World) :
  let path := path_join (outdir app) "tutorials.rss" in
  let feed := RSSFeed.init cls [] None None None None None None in
  Forall (fun t => startswith t "tutorials/" = false) (metadata app).*1 ->
  writable (fs w) path = true ->
  feed_items app (fs w) = Ok []
  /\ exists w',
       generate_tutorials_feed cls app w = (Ok tt, w')
       /\ files (fs w') !! path
          = Some (mk_file
                    (RSSFeed.document feed EmptyString
                       (_format_timetuple_and_zone
                          (timetuple (RSSFeed.default_last_build_date cls))
                          "GMT"))
                    (clock w)).
Proof.
  intros path feed Hnone Hw.
  assert (E : feed_items app (fs w) = Ok []).
  { unfold feed_items, tutorials. rewrite filter_none; [done |].
    eapply Forall_impl; [exact Hnone |]. cbv beta. intros t ->. done. }
  split; [exact E |].
  rewrite generate_unfold, E. cbv zeta.
  unfold open_w. cbn [fs clock log files writable]. fold path. rewrite Hw.
  rewrite render_pair.
  unfold write, logger, modify, mbind, stateM_bind. cbn.
  eexists. split; [reflexivity |].
  cbn. by rewrite lookup_insert_eq.
Qed.

(** ** The build step does not read what it writes *)

Lemma last_char_eq (a b : string) (c d : ascii) :
  a +:+ String c EmptyString = b +:+ String d EmptyString -> c = d.
Proof.
  revert b. induction a as [|x a IH]; intros [|y b]; rewrite ?append_cons,
    ?append_nil_l.
  - by intros [= ->].
  - intros [= -> E]. by destruct b.
  - intros [= -> E]. by destruct a.
  - intros [= -> E]. eauto.
Qed.

Lemma output_is_no_source (app : Sphinx) (page_name : string) :
  path_join (outdir app) "tutorials.rss"
  <> path_join (srcdir app) (page_name +:+ ".md").
Proof.
  unfold path_join. intros E.
  assert (E' : (outdir app +:+ "/tutorials.rs") +:+ "s"
               = (srcdir app +:+ "/" +:+ page_name +:+ ".m") +:+ "d").
  { rewrite !append_assoc. exact E. }
  apply last_char_eq in E'. discriminate E'.
Qed.

Lemma get_date_updated_frame `{Platform} page_name
    (meta : gmap string string) app (fs1 fs2 : FileSystem) :
  files fs1 !! path_join (srcdir app) (page_name +:+ ".md")
  = files fs2 !! path_join (srcdir app) (page_name +:+ ".md") ->
  RSSItem.get_date_updated page_name meta app fs1
  = RSSItem.get_date_updated page_name meta app fs2.
Proof.
  intros E. unfold RSSItem.get_date_updated, stat. by rewrite E.
Qed.

Lemma feed_items_frame `{Platform} app (fs1 fs2 : FileSystem) :
  (forall t, files fs1 !! path_join (srcdir app) (t +:+ ".md")
             = files fs2 !! path_join (srcdir app) (t +:+ ".md")) ->
  feed_items app fs1 = feed_items app fs2.
Proof.
  intros E. unfold feed_items. apply comprehension_ext, Forall_forall.
  intros t _. destruct (dict_getitem (metadata app) t) as [m|]; [| done].
  cbn [mbind result_bind]. unfold RSSItem.from_meta.
  by rewrite (get_date_updated_frame t m app fs1 fs2 (E t)).
Qed.

(** X16: the build step does not read what it writes: after a run that
    succeeded, a second run at any later time succeeds too and writes the
    same document, the files other than the output being still those from
    before the first run. *)
Theorem X16_second_run_writes_same_document `{Platform} (cls : RSSFeed.class)
    (app : Sphinx) (w w1 : World) (later : Z) :
  let path := path_join (outdir app) "tutorials.rss" in
  generate_tutorials_feed cls app w = (Ok tt, w1) ->
  exists w2 text,
    generate_tutorials_feed cls app (mk_World later (fs w1) (log w1))
    = (Ok tt, w2)
    /\ files (fs w1) !! path = Some (mk_file text (clock w))
    /\ files (fs w2) !! path = Some (mk_file text later)
    /\ forall p, p <> path -> files (fs w2) !! p = files (fs w) !! p.
Proof.
  intros path. rewrite generate_unfold.
  destruct (feed_items app (fs w)) as [its|] eqn:Hits; [| done].
  cbv zeta. unfold open_w. cbn [fs clock log files writable]. fold path.
  destruct (writable (fs w) path) eqn:Hw; [| done].
  rewrite render_pair.
  destruct (fst (RSSFeed.render _)) as [text|] eqn:Hr; [| done].
  unfold write, logger, modify, mbind, stateM_bind. cbn.
  rewrite insert_insert_eq. intros [= <-]. cbn [fs log].
  assert (Hits' :
    feed_items app
      (mk_fs (<[path := mk_file text (clock w)]> (files (fs w)))
             (writable (fs w)))
    = Ok its).
  { rewrite <- Hits. apply feed_items_frame. intros t. cbn [files].
    apply lookup_insert_ne, output_is_no_source. }
  rewrite generate_unfold. cbn [fs clock log]. rewrite Hits'. cbv zeta.
  unfold open_w. cbn [fs clock log files writable]. fold path. rewrite Hw.
  rewrite render_pair, Hr.
  unfold write, logger, modify, mbind, stateM_bind. cbn.
  do 2 eexists. split; [reflexivity |]. cbn.
  split; [by rewrite lookup_insert_eq |].
  split; [by rewrite lookup_insert_eq |].
  intros p Hp. by rewrite !lookup_insert_ne.
Qed.

(** X17: for timestamps that can be ordered, what [sorted] returns is in
    descending order of the instants the timestamps denote (the fields,
    less the zone offset when there is one), and two timestamps of the
    list compare equal exactly when they denote the same instant. *)
Theorem X17_entries_are_ordered_by_instant (l r : list RSSItem.t) :
  Forall (fun it => valid_datetime (RSSItem.date it) = true) l ->
  Forall (fun it => naive (RSSItem.date it)) l
  \/ Forall (fun it => aware (RSSItem.date it)) l ->
  sorted datetime_lt l RSSItem.date true = Ok r ->
  StronglySorted
    (fun x y => instant (RSSItem.date y) <= instant (RSSItem.date x)) r
  /\ forall x y, x ∈ l -> y ∈ l ->
       (same_time (RSSItem.date x) (RSSItem.date y) = true
        <-> instant (RSSItem.date x) = instant (RSSItem.date y)).
Proof.
  intros Hv Hk Hr.
  destruct (same_kind_cases l Hv Hk) as (ok & Hlt & Hst & Hok).
  destruct (sorted_reverse_spec datetime_lt RSSItem.date ok instant Hlt l Hok)
    as (r' & E & _ & S & _).
  rewrite E in Hr. injection Hr as <-.
  split; [exact S |].
  rewrite Forall_forall in Hok. intros x y Hx Hy.
  rewrite (Hst _ _ (Hok x Hx) (Hok y Hy)). split; congruence.
Qed.

Lemma X17_witness_tied_feed :
  Forall (fun it => valid_datetime (RSSItem.date it) = true)
    (RSSFeed.items tied_feed)
  /\ (Forall (fun it => naive (RSSItem.date it)) (RSSFeed.items tied_feed)
      \/ Forall (fun it => aware (RSSItem.date it)) (RSSFeed.items tied_feed))
  /\ sorted datetime_lt (RSSFeed.items tied_feed) RSSItem.date true
     = Ok [item_at "b" naive_jan20; item_at "a" naive_10h;
           item_at "c" naive_10h]
  /\ StronglySorted
       (fun x y => instant (RSSItem.date y) <= instant (RSSItem.date x))
       [item_at "b" naive_jan20; item_at "a" naive_10h; item_at "c" naive_10h]
  /\ forall x y, x ∈ RSSFeed.items tied_feed -> y ∈ RSSFeed.items tied_feed ->
       (same_time (RSSItem.date x) (RSSItem.date y) = true
        <-> instant (RSSItem.date x) = instant (RSSItem.date y)).
Proof.
  assert (Hv : Forall (fun it => valid_datetime (RSSItem.date it) = true)
                 (RSSFeed.items tied_feed)) by (repeat constructor).
  assert (Hn : Forall (fun it => naive (RSSItem.date it))
                 (RSSFeed.items tied_feed)) by (repeat constructor).
  assert (Hs : sorted datetime_lt (RSSFeed.items tied_feed) RSSItem.date true
               = Ok [item_at "b" naive_jan20; item_at "a" naive_10h;
                     item_at "c" naive_10h]) by reflexivity.
  split; [exact Hv |]. split; [left; exact Hn |]. split; [exact Hs |].
  exact (X17_entries_are_ordered_by_instant _ _ Hv (or_introl Hn) Hs).
Defined.


Lemma X2_witness_readonly_machine :
  let cls := @RSSFeed.class_body utc_machine (sample_world 0) in
  let path := path_join (outdir sample_app) "tutorials.rss" in
  exists its,
    @feed_items utc_machine sample_app (fs readonly_world) = Ok its
    /\ writable (fs readonly_world) path = false
    /\ @generate_tutorials_feed utc_machine cls sample_app readonly_world
       = (Raise (OSError path),
          mk_World (clock readonly_world) (fs readonly_world)
            (log readonly_world
             ++ [Info "Generating RSS feed for tutorials"])).
Proof.
  intros cls path.
  destruct (@feed_items utc_machine sample_app (fs readonly_world))
    as [its|] eqn:H1; [| vm_compute in H1; discriminate H1].
  assert (H2 : writable (fs readonly_world) path = false) by reflexivity.
  exists its. split; [reflexivity |]. split; [exact H2 |].
  exact (@X2_unwritable_output_raises_OSError utc_machine cls sample_app
           readonly_world its H1 H2).
Defined.

Lemma X3_witness_mixed_site :
  let w := sample_world 5 in
  let cls := @RSSFeed.class_body utc_machine (sample_world 0) in
  let path := path_join (outdir mixed_app) "tutorials.rss" in
  exists its,
    @feed_items utc_machine mixed_app (fs w) = Ok its
    /\ writable (fs w) path = true
    /\ fst (RSSFeed.render
              (RSSFeed.init cls its None None None None None None))
       = Raise TypeError
    /\ @generate_tutorials_feed utc_machine cls mixed_app w
       = (Raise TypeError,
          mk_World (clock w)
            (mk_fs (<[path := mk_file EmptyString (clock w)]> (files (fs w)))
                   (writable (fs w)))
            (log w ++ [Info "Generating RSS feed for tutorials"])).
Proof.
  intros w cls path.
  destruct (@feed_items utc_machine mixed_app (fs w)) as [its|] eqn:H1;
    [| vm_compute in H1; discriminate H1].
  assert (H3 : fst (RSSFeed.render
                      (RSSFeed.init cls its None None None None None None))
               = Raise TypeError).
  { vm_compute in H1. injection H1 as <-. vm_compute. reflexivity. }
  assert (H2 : writable (fs w) path = true) by reflexivity.
  exists its. split; [reflexivity |]. split; [exact H2 |]. split; [exact H3 |].
  exact (@X3_failed_render_leaves_empty_file utc_machine cls mixed_app w its
           TypeError H1 H2 H3).
Defined.

Lemma X7_witness_reordered_feed :
  let l1 := [item_at "a" naive_10h; item_at "b" naive_jan20;
             item_at "c" naive_10h] in
  let l2 := [item_at "b" naive_jan20; item_at "a" naive_10h;
             item_at "c" naive_10h] in
  Forall (fun it => valid_datetime (RSSItem.date it) = true) l1
  /\ (Forall (fun it => naive (RSSItem.date it)) l1
      \/ Forall (fun it => aware (RSSItem.date it)) l1)
  /\ l1 ≡ₚ l2
  /\ (forall it, it ∈ l1 ->
        filter (fun y => same_time (RSSItem.date it) (RSSItem.date y) = true)
          l1
        = filter (fun y => same_time (RSSItem.date it) (RSSItem.date y) = true)
            l2)
  /\ sorted datetime_lt l1 RSSItem.date true
     = sorted datetime_lt l2 RSSItem.date true
  /\ forall last_build_date title link self_link description language,
       fst (RSSFeed.render
              (RSSFeed.mk l1 last_build_date title link self_link description
                 language))
       = fst (RSSFeed.render
                (RSSFeed.mk l2 last_build_date title link self_link
                   description language)).
Proof.
  intros l1 l2.
  assert (Hv : Forall (fun it => valid_datetime (RSSItem.date it) = true) l1)
    by (repeat constructor).
  assert (Hn : Forall (fun it => naive (RSSItem.date it)) l1)
    by (repeat constructor).
  assert (Hp : l1 ≡ₚ l2) by apply perm_swap.
  assert (Ht : forall it, it ∈ l1 ->
            filter (fun y => same_time (RSSItem.date it) (RSSItem.date y)
                             = true) l1
            = filter (fun y => same_time (RSSItem.date it) (RSSItem.date y)
                               = true) l2).
  { intros it Hit. subst l1 l2.
    repeat (apply elem_of_cons in Hit as [-> | Hit]; [reflexivity |]).
    by apply elem_of_nil in Hit. }
  split; [exact Hv |]. split; [left; exact Hn |]. split; [exact Hp |].
  split; [exact Ht |].
  exact (X7_order_depends_on_ties_only l1 l2 Hv (or_introl Hn) Hp Ht).
Defined.

Lemma X8_witness_sorted_items :
  let l := [item_at "b" naive_jan20; item_at "a" naive_10h;
            item_at "c" naive_10h] in
  Forall (fun it => valid_datetime (RSSItem.date it) = true) l
  /\ (Forall (fun it => naive (RSSItem.date it)) l
      \/ Forall (fun it => aware (RSSItem.date it)) l)
  /\ StronglySorted
       (fun x y => datetime_lt (RSSItem.date x) (RSSItem.date y) = Ok false) l
  /\ sorted datetime_lt l RSSItem.date true = Ok l.
Proof.
  intros l.
  assert (Hv : Forall (fun it => valid_datetime (RSSItem.date it) = true) l)
    by (repeat constructor).
  assert (Hn : Forall (fun it => naive (RSSItem.date it)) l)
    by (repeat constructor).
  assert (Hs : StronglySorted
                 (fun x y => datetime_lt (RSSItem.date x) (RSSItem.date y)
                             = Ok false) l)
    by (repeat constructor).
  split; [exact Hv |]. split; [left; exact Hn |]. split; [exact Hs |].
  exact (proj1 (X8_sorted_feed_keeps_its_order l Hv (or_introl Hn)) Hs).
Defined.

Lemma X11_witness_tagged_page :
  sample_meta_tagged !! ":og:title" = sample_meta !! ":og:title"
  /\ sample_meta_tagged !! ":og:description"
     = sample_meta !! ":og:description"
  /\ sample_meta_tagged !! ":og:author" = sample_meta !! ":og:author"
  /\ sample_meta_tagged !! "date_updated" = sample_meta !! "date_updated"
  /\ @RSSItem.from_meta utc_machine "tutorials/intro" sample_meta_tagged
       sample_app sample_fs
     = @RSSItem.from_meta utc_machine "tutorials/intro" sample_meta
         sample_app sample_fs.
Proof.
  assert (H1 : sample_meta_tagged !! ":og:title" = sample_meta !! ":og:title")
    by (vm_compute; reflexivity).
  assert (H2 : sample_meta_tagged !! ":og:description"
               = sample_meta !! ":og:description")
    by (vm_compute; reflexivity).
  assert (H3 : sample_meta_tagged !! ":og:author"
               = sample_meta !! ":og:author")
    by (vm_compute; reflexivity).
  assert (H4 : sample_meta_tagged !! "date_updated"
               = sample_meta !! "date_updated")
    by (vm_compute; reflexivity).
  split; [exact H1 |]. split; [exact H2 |]. split; [exact H3 |].
  split; [exact H4 |].
  exact (@X11_from_meta_reads_four_keys utc_machine "tutorials/intro"
           sample_meta_tagged sample_meta sample_app sample_fs H1 H2 H3 H4).
Defined.


Lemma X14_witness_aware_timestamp :
  valid_datetime aware_10h_plus5 = true
  /\ _format_rfc_2822 aware_10h_plus5 = Ok "Mon, 15 Jan 2024 10:00:00 GMT"
  /\ String.length "Mon, 15 Jan 2024 10:00:00 GMT" = 29%nat.
Proof.
  assert (H1 : valid_datetime aware_10h_plus5 = true) by reflexivity.
  assert (H2 : _format_rfc_2822 aware_10h_plus5
               = Ok "Mon, 15 Jan 2024 10:00:00 GMT") by reflexivity.
  split; [exact H1 |]. split; [exact H2 |].
  exact (X14_pubDate_has_29_characters aware_10h_plus5 _ H1 H2).
Defined.

Lemma X15_witness_index_only :
  let w := sample_world 5 in
  let cls := @RSSFeed.class_body utc_machine (sample_world 0) in
  let path := path_join (outdir index_app) "tutorials.rss" in
  let feed := RSSFeed.init cls [] None None None None None None in
  Forall (fun t => startswith t "tutorials/" = false) (metadata index_app).*1
  /\ writable (fs w) path = true
  /\ @feed_items utc_machine index_app (fs w) = Ok []
  /\ exists w',
       @generate_tutorials_feed utc_machine cls index_app w = (Ok tt, w')
       /\ files (fs w') !! path
          = Some (mk_file
                    (RSSFeed.document feed EmptyString
                       (_format_timetuple_and_zone
                          (timetuple (RSSFeed.default_last_build_date cls))
                          "GMT"))
                    (clock w)).
Proof.
  intros w cls path feed.
  assert (H1 : Forall (fun t => startswith t "tutorials/" = false)
                 (metadata index_app).*1) by (repeat constructor).
  assert (H2 : writable (fs w) path = true) by reflexivity.
  split; [exact H1 |]. split; [exact H2 |].
  exact (@X15_site_without_tutorials utc_machine cls index_app w H1 H2).
Defined.

Lemma X16_witness_sample_site :
  let w := sample_world 5 in
  let cls := @RSSFeed.class_body utc_machine (sample_world 0) in
  let path := path_join (outdir sample_app) "tutorials.rss" in
  let w1 := snd (@generate_tutorials_feed utc_machine cls sample_app w) in
  @generate_tutorials_feed utc_machine cls sample_app w = (Ok tt, w1)
  /\ exists w2 text,
       @generate_tutorials_feed utc_machine cls sample_app
         (mk_World 9 (fs w1) (log w1))
       = (Ok tt, w2)
       /\ files (fs w1) !! path = Some (mk_file text (clock w))
       /\ files (fs w2) !! path = Some (mk_file text 9)
       /\ forall p, p <> path -> files (fs w2) !! p = files (fs w) !! p.
Proof.
  intros w cls path w1.
  assert (H1 : @generate_tutorials_feed utc_machine cls sample_app w
               = (Ok tt, w1)) by (vm_compute; reflexivity).
  split; [exact H1 |].
  exact (@X16_second_run_writes_same_document utc_machine cls sample_app w w1 9
           H1).
Defined.
